(** * Plugin loading, the loaded-plugin adapter and Gradle node synthesis of nx

    A shallow embedding of
    - [packages/nx/src/project-graph/plugins/internal-api.ts]
      ([LoadedNxPlugin], [loadNxPlugins], [normalizePlugins],
      [getDefaultPlugins]),
    - the Gradle plugin as exercised by
      [packages/gradle/src/plugin/nodes.spec.ts], and
    - the prompt selection class [PromptMessages],
    together with the properties the specification states about them. *)

From stdpp Require Import base option list strings gmap.
From Stdlib Require Import Ascii ZArith.

Set Default Proof Using "Type".
Set Warnings "-register-all".

(** * Part I: the programs *)

(** An entry of the [performance] timeline. *)
Inductive PerfEntry : Type :=
| Mark (markName : string)
| Measure (measureName startMark endMark : string).

(** The environment variables the sources read ([process.env.X] is
    [undefined] or a string). *)
Record ProcessEnv : Type := {
  NX_ISOLATE_PLUGINS : option string;
  NX_GENERATE_DOCS_PROCESS : option string;
}.

Module InternalApi.

(** Types that [internal-api.ts] only imports: plugin options (typed
    [unknown] in the source), the result of node creation, the contexts
    handed to the hooks, the project graph, and the outside world the
    cleanup callbacks act on. *)
Class ImportedTypes : Type := {
  Options : Type;
  CreateNodesResult : Type;
  CreateNodesContext : Type;
  CreateNodesContextV2 : Type;
  CreateDependenciesContext : Type;
  CreateMetadataContext : Type;
  ProjectGraph : Type;
  RawProjectGraphDependencies : Type;
  ProjectsMetadata : Type;
  ProjectGraphProcessor : Type;
  World : Type;
}.

(** Modelled from the spec: the errors of the module [../error-types],
    which [internal-api.ts] imports.  A thrown value is either the
    recognized aggregate error, carrying a list of [(file | null, error)]
    pairs and a list of partial per-file results, or any other error. *)
Inductive JsError `{ImportedTypes} : Type :=
| OtherError (message : string)
| AggregateCreateNodesError
    (errors : list (option string * JsError))
    (partialResults : list (string * CreateNodesResult)).

Definition isAggregateCreateNodesError `{ImportedTypes} (e : JsError) : bool :=
  match e with
  | AggregateCreateNodesError _ _ => true
  | OtherError _ => false
  end.

(** How an awaited promise settles. *)
Inductive Outcome `{ImportedTypes} (A : Type) : Type :=
| Resolved (a : A)
| Rejected (e : JsError).
Arguments Resolved {_ A} a.
Arguments Rejected {_ A} e.

(** An [async] computation: it extends the performance timeline and
    settles. *)
Definition Async `{ImportedTypes} (A : Type) : Type :=
  list PerfEntry -> Outcome A * list PerfEntry.

#[global] Instance Async_ret `{ImportedTypes} : MRet Async :=
  fun A a tl => (Resolved a, tl).

#[global] Instance Async_bind `{ImportedTypes} : MBind Async :=
  fun A B k m tl =>
    match m tl with
    | (Resolved a, tl') => k a tl'
    | (Rejected e, tl') => (Rejected e, tl')
    end.

Definition throw `{ImportedTypes} {A} (e : JsError) : Async A :=
  fun tl => (Rejected e, tl).

(** [try { body } catch (e) { handler e } finally { epilogue }]; the
    [finally] blocks of the source only extend the timeline. *)
Definition try_catch_finally `{ImportedTypes} {A}
    (body : Async A) (handler : JsError -> Async A)
    (epilogue : Async unit) : Async A :=
  fun tl =>
    let '(r, tl') :=
      match body tl with
      | (Resolved a, tl') => (Resolved a, tl')
      | (Rejected e, tl') => handler e tl'
      end in
    match epilogue tl' with
    | (Resolved _, tl'') => (r, tl'')
    | (Rejected e, tl'') => (Rejected e, tl'')
    end.

Definition performance_mark `{ImportedTypes} (markName : string) : Async unit :=
  fun tl => (Resolved tt, tl ++ [Mark markName]).

Definition performance_measure `{ImportedTypes}
    (measureName startMark endMark : string) : Async unit :=
  fun tl => (Resolved tt, tl ++ [Measure measureName startMark endMark]).

(** ** Raw plugins *)

Definition CreateNodesFunction `{ImportedTypes} : Type :=
  string -> option Options -> CreateNodesContext -> Async CreateNodesResult.

Definition CreateNodesFunctionV2 `{ImportedTypes} : Type :=
  list string -> option Options -> CreateNodesContextV2 ->
  Async (list (string * CreateNodesResult)).

(** [NormalizedPlugin = NxPluginV2 & Pick<NxPluginV1, 'processProjectGraph'>] *)
Record NormalizedPlugin `{ImportedTypes} : Type := {
  plugin_name : string;
  plugin_createNodes : option (string * CreateNodesFunction);
  plugin_createNodesV2 : option (string * CreateNodesFunctionV2);
  plugin_createDependencies :
    option (option Options -> CreateDependenciesContext ->
            Async RawProjectGraphDependencies);
  plugin_createMetadata :
    option (ProjectGraph -> option Options -> CreateMetadataContext ->
            Async ProjectsMetadata);
  plugin_processProjectGraph : option ProjectGraphProcessor;
}.

(** [PluginConfiguration = string | ExpandedPluginConfiguration] *)
Inductive PluginConfiguration `{ImportedTypes} : Type :=
| PluginPath (path : string)
| ExpandedPluginConfiguration
    (plugin : string) (options : option Options)
    (include exclude : option (list string)).

(** ** [class LoadedNxPlugin] *)

Definition LoadedCreateNodesFunction `{ImportedTypes} : Type :=
  list string -> CreateNodesContextV2 ->
  Async (list (string * string * CreateNodesResult)).

Record LoadedNxPlugin `{ImportedTypes} : Type := {
  name : string;
  createNodes : option (string * LoadedCreateNodesFunction);
  createDependencies :
    option (CreateDependenciesContext -> Async RawProjectGraphDependencies);
  createMetadata :
    option (ProjectGraph -> CreateMetadataContext -> Async ProjectsMetadata);
  processProjectGraph : option ProjectGraphProcessor;
  options : option Options;
  include : option (list string);
  exclude : option (list string);
}.

(** What [internal-api.ts] imports from the rest of the package and from
    node: the per-file fan-out utility of [./utils], [path.join] and
    [__dirname], the workspace root, the Angular workspace check, the two
    loading methods (each yields, or fails to yield, the pair of a promise of
    the loaded plugin and a cleanup callback) and the transpiler
    unregistration callback, which is unset unless a transpiler was
    registered. *)
Class Imports `{ImportedTypes} : Type := {
  createNodesFromFiles :
    CreateNodesFunction -> list string -> option Options ->
    CreateNodesContextV2 -> Async (list (string * CreateNodesResult));
  join : string -> string -> string;
  __dirname : string;
  workspaceRoot : string;
  shouldMergeAngularProjects : string -> bool -> bool;
  loadNxPluginInIsolation :
    PluginConfiguration -> string ->
    Outcome (Outcome LoadedNxPlugin * (World -> World));
  loadNxPlugin :
    PluginConfiguration -> string ->
    Outcome (Outcome LoadedNxPlugin * (World -> World));
  unregisterPluginTSTranspiler : option (World -> World);
}.

(** [results.map((r) => [this.name, r[0], r[1]])] *)
Definition tag_results `{ImportedTypes} (this_name : string)
    (results : list (string * CreateNodesResult))
    : list (string * string * CreateNodesResult) :=
  map (fun r => (this_name, r.1, r.2)) results.

(** [if (typeof pluginDefinition !== 'string') { this.options = ...; ... }] *)
Definition this_options `{ImportedTypes} (pluginDefinition : PluginConfiguration)
    : option Options :=
  match pluginDefinition with
  | PluginPath _ => None
  | ExpandedPluginConfiguration _ o _ _ => o
  end.

Definition this_include `{ImportedTypes} (pluginDefinition : PluginConfiguration)
    : option (list string) :=
  match pluginDefinition with
  | PluginPath _ => None
  | ExpandedPluginConfiguration _ _ i _ => i
  end.

Definition this_exclude `{ImportedTypes} (pluginDefinition : PluginConfiguration)
    : option (list string) :=
  match pluginDefinition with
  | PluginPath _ => None
  | ExpandedPluginConfiguration _ _ _ x => x
  end.

(** [if (plugin.createNodes && !plugin.createNodesV2) { this.createNodes = ... }] *)
Definition createNodes_from_legacy `{Imports} (plugin : NormalizedPlugin)
    (this_name : string) (this_opts : option Options)
    : option (string * LoadedCreateNodesFunction) :=
  match plugin_createNodes plugin, plugin_createNodesV2 plugin with
  | Some (filePattern, fn), None =>
      Some (filePattern,
            fun configFiles context =>
              results ← createNodesFromFiles fn configFiles this_opts context;
              mret (tag_results this_name results))
  | _, _ => None
  end.

(** [if (plugin.createNodesV2) { this.createNodes = ... }]: the assignment
    overwrites whatever the previous statement stored. *)
Definition createNodes_from_v2 `{ImportedTypes} (plugin : NormalizedPlugin)
    (this_name : string) (this_opts : option Options)
    (previous : option (string * LoadedCreateNodesFunction))
    : option (string * LoadedCreateNodesFunction) :=
  match plugin_createNodesV2 plugin with
  | Some (filePattern, fn) =>
      Some (filePattern,
            fun configFiles context =>
              result ← fn configFiles this_opts context;
              mret (tag_results this_name result))
  | None => previous
  end.

(** The function stored by [if (this.createNodes) { ... }]: timeline marks
    around the call of [inner], and containment of what it throws. *)
Definition contain_errors `{ImportedTypes} (pluginName : string)
    (inner : LoadedCreateNodesFunction) : LoadedCreateNodesFunction :=
  fun configFiles context =>
    performance_mark (pluginName +:+ ":createNodes - start");;
    try_catch_finally
      (inner configFiles context)
      (fun e =>
         if isAggregateCreateNodesError e then throw e
         else throw (AggregateCreateNodesError [(None, e)] []))
      (performance_mark (pluginName +:+ ":createNodes - end");;
       performance_measure
         (pluginName +:+ ":createNodes")
         (pluginName +:+ ":createNodes - start")
         (pluginName +:+ ":createNodes - end")).

(** [constructor(plugin, pluginDefinition)] *)
Definition new_LoadedNxPlugin `{Imports} (plugin : NormalizedPlugin)
    (pluginDefinition : PluginConfiguration) : LoadedNxPlugin :=
  let this_name := plugin_name plugin in
  let this_opts := this_options pluginDefinition in
  let createNodes1 := createNodes_from_legacy plugin this_name this_opts in
  let createNodes2 :=
    createNodes_from_v2 plugin this_name this_opts createNodes1 in
  let createNodes3 :=
    match createNodes2 with
    | Some (filePattern, inner) =>
        Some (filePattern, contain_errors (plugin_name plugin) inner)
    | None => None
    end in
  {| name := this_name;
     createNodes := createNodes3;
     createDependencies :=
       match plugin_createDependencies plugin with
       | Some f => Some (fun context => f this_opts context)
       | None => None
       end;
     createMetadata :=
       match plugin_createMetadata plugin with
       | Some f => Some (fun graph context => f graph this_opts context)
       | None => None
       end;
     processProjectGraph := plugin_processProjectGraph plugin;
     options := this_opts;
     include := this_include pluginDefinition;
     exclude := this_exclude pluginDefinition |}.

(** ** [getDefaultPlugins] and [normalizePlugins]

    Both are [async] functions that await nothing that can fail; they are
    embedded as the lists they resolve to. *)

Definition getDefaultPlugins `{Imports} (root : string)
    : list PluginConfiguration :=
  [PluginPath (join __dirname "../../plugins/js")]
  ++ (if shouldMergeAngularProjects root false
      then [PluginPath (join __dirname "../../adapter/angular-json")]
      else [])
  ++ [PluginPath (join __dirname "../../plugins/package-json-workspaces");
      PluginPath
        (join __dirname "../../plugins/project-json/build-nodes/project-json")].

(** [plugins ??= []] makes an absent list empty. *)
Definition normalizePlugins `{Imports}
    (plugins : option (list PluginConfiguration)) (root : string)
    : list PluginConfiguration :=
  let plugins := default [] plugins in
  [PluginPath
     (join __dirname
        "../../plugins/project-json/build-nodes/package-json-next-to-project-json")]
  ++ plugins
  ++ getDefaultPlugins root.

(** ** [Promise.all] under an explicit completion order

    The promises handed to [Promise.all] settle in an order the program does
    not control.  [sched] lists the indices of the promises in the order in
    which they settle; when promise [i] settles its continuation runs on the
    shared state [S].  [values] holds the values of the promises fulfilled so
    far.  The combined promise rejects with the first rejection, is fulfilled
    with the values in index order once every promise is fulfilled, and
    otherwise stays pending ([None]).  An index that is out of range or
    whose promise has already settled is no event. *)
Fixpoint Promise_all_from `{ImportedTypes} {S A}
    (promises : list (S -> Outcome A * S)) (sched : list nat)
    (values : list (option A)) (s : S) : option (Outcome (list A)) * S :=
  match sched with
  | [] => (Resolved <$> mapM id values, s)
  | i :: sched' =>
      match values !! i, promises !! i with
      | Some None, Some p =>
          match p s with
          | (Resolved a, s') =>
              Promise_all_from promises sched' (<[i := Some a]> values) s'
          | (Rejected e, s') => (Some (Rejected e), s')
          end
      | _, _ => Promise_all_from promises sched' values s
      end
  end.

Definition Promise_all `{ImportedTypes} {S A}
    (promises : list (S -> Outcome A * S)) (sched : list nat) (s : S)
    : option (Outcome (list A)) * S :=
  Promise_all_from promises sched (replicate (length promises) None) s.

(** ** [loadNxPlugins] *)

(** The two local arrays of [loadNxPlugins]: [result], created by
    [new Array(n)] with every slot empty, and [cleanupFunctions]. *)
Record LoadState `{ImportedTypes} : Type := {
  result : list (option (Outcome LoadedNxPlugin));
  cleanupFunctions : list (World -> World);
}.

(** The body of the callback mapped over the plugins, from the point where
    [await loadingMethod(plugin, root)] settles with [loaded]. *)
Definition load_callback `{ImportedTypes}
    (loaded : Outcome (Outcome LoadedNxPlugin * (World -> World)))
    (idx : nat) (st : LoadState) : Outcome unit * LoadState :=
  match loaded with
  | Resolved (loadedPluginPromise, cleanup) =>
      (Resolved tt,
       {| result := <[idx := Some loadedPluginPromise]> (result st);
          cleanupFunctions := cleanupFunctions st ++ [cleanup] |})
  | Rejected e => (Rejected e, st)
  end.

(** Awaiting a slot of [result]: an empty slot reads as [undefined]. *)
Definition await_slot `{ImportedTypes}
    (slot : option (Outcome LoadedNxPlugin))
    : unit -> Outcome (option LoadedNxPlugin) * unit :=
  fun u =>
    match slot with
    | Some (Resolved p) => (Resolved (Some p), u)
    | Some (Rejected e) => (Rejected e, u)
    | None => (Resolved None, u)
    end.

(** The cleanup function returned to the caller. *)
Definition all_cleanup `{Imports} (fns : list (World -> World))
    : World -> World :=
  fun w =>
    let w' := fold_left (fun w fn => fn w) fns w in
    match unregisterPluginTSTranspiler with
    | Some unregister => unregister w'
    | None => w'
    end.

Definition loadingMethod `{Imports} (env : ProcessEnv)
    : PluginConfiguration -> string ->
      Outcome (Outcome LoadedNxPlugin * (World -> World)) :=
  if bool_decide (NX_ISOLATE_PLUGINS env <> Some "false")
  then loadNxPluginInIsolation
  else loadNxPlugin.

(** [loadNxPlugins(plugins, root = workspaceRoot)].  [sched1] is the order
    in which the per-plugin loads settle, [sched2] the order in which the
    promises of the loaded plugins settle.  The result is [None] while the
    returned promise is pending. *)
Definition loadNxPlugins `{Imports} (env : ProcessEnv)
    (sched1 sched2 : list nat)
    (plugins : option (list PluginConfiguration)) (root : option string)
    : list PerfEntry ->
      option (Outcome (list (option LoadedNxPlugin) * (World -> World)))
      * list PerfEntry :=
  fun tl =>
    let root := default workspaceRoot root in
    let tl := tl ++ [Mark "loadNxPlugins:start"] in
    let plugins := normalizePlugins plugins root in
    let st0 := {| result := replicate (length plugins) None;
                  cleanupFunctions := [] |} in
    let callbacks :=
      imap (fun idx plugin => load_callback (loadingMethod env plugin root) idx)
           plugins in
    match Promise_all callbacks sched1 st0 with
    | (None, _) => (None, tl)
    | (Some (Rejected e), _) => (Some (Rejected e), tl)
    | (Some (Resolved _), st) =>
        match Promise_all (await_slot <$> result st) sched2 tt with
        | (None, _) => (None, tl)
        | (Some (Rejected e), _) => (Some (Rejected e), tl)
        | (Some (Resolved loaded), _) =>
            (Some (Resolved (loaded, all_cleanup (cleanupFunctions st))),
             tl ++ [Mark "loadNxPlugins:end";
                    Measure "loadNxPlugins" "loadNxPlugins:start"
                            "loadNxPlugins:end"])
        end
    end.

End InternalApi.

(** ** Paths and JavaScript objects used by the Gradle plugin *)

Module Path.

(** [rsplit sep s] cuts [s] at its last occurrence of [sep]. *)
Fixpoint rsplit (sep : ascii) (s : string) : option (string * string) :=
  match s with
  | EmptyString => None
  | String c rest =>
      match rsplit sep rest with
      | Some (before, after) => Some (String c before, after)
      | None => if Ascii.eqb c sep then Some (EmptyString, rest) else None
      end
  end.

(** Modelled from the spec: node's [path.dirname], the containing directory
    of a workspace-relative file ("." for a file at the top). *)
Definition dirname (path : string) : string :=
  match rsplit "/"%char path with
  | Some (dir, _) => dir
  | None => "."
  end.

(** Modelled from the spec: node's [path.basename], the file's name. *)
Definition basename (path : string) : string :=
  match rsplit "/"%char path with
  | Some (_, base) => base
  | None => path
  end.

(** Modelled from the spec: "the file's name (without extension)". *)
Definition name_without_extension (path : string) : string :=
  let base := basename path in
  match rsplit "."%char base with
  | Some (stem, _) => stem
  | None => base
  end.

(** Modelled from the spec: "strict root-prefix matching": the file's path
    starts with the root followed by the separator. *)
Definition within_subtree (root file : string) : bool :=
  String.prefix (root +:+ "/") file.

End Path.

Module JsObject.

(** A JavaScript object used as a record of entries: keys are unique and
    keep the order of their first insertion. *)
Fixpoint get {V} (k : string) (o : list (string * V)) : option V :=
  match o with
  | [] => None
  | (k', v) :: o' => if String.eqb k k' then Some v else get k o'
  end.

(** [o[k] = v] *)
Fixpoint set {V} (k : string) (v : V) (o : list (string * V))
    : list (string * V) :=
  match o with
  | [] => [(k, v)]
  | (k', v') :: o' =>
      if String.eqb k k' then (k, v) :: o' else (k', v') :: set k v o'
  end.

(** [if (!o[k]) o[k] = []; o[k].push(x)] *)
Definition push {V} (k : string) (x : V) (o : list (string * list V))
    : list (string * list V) :=
  set k (default [] (get k o) ++ [x]) o.

Definition keys {V} (o : list (string * V)) : list string := o.*1.

End JsObject.

(** ** The Gradle plugin *)

Module Gradle.

(** The mocked constant of [nodes.spec.ts]. *)
Definition GRADLE_BUILD_FILES : gset string :=
  {[ "build.gradle"; "build.gradle.kts" ]}.

(** [GradleReport], as the test builds it.  The task map of a project is
    iterated, so it keeps its order; the other maps are only looked up. *)
Record GradleReport : Type := {
  gradleFileToGradleProjectMap : gmap string string;
  buildFileToDepsMap : gmap string string;
  gradleFileToOutputDirsMap : gmap string (list (string * string));
  gradleProjectToTasksTypeMap : gmap string (list (string * string));
  gradleProjectToProjectName : gmap string string;
}.

(** The plugin options the test passes. *)
Record GradlePluginOptions : Type := {
  buildTargetName : option string;
  ciTargetName : option string;
}.

Record CreateNodesContext : Type := {
  namedInputs : list (string * list string);
  workspaceRoot : string;
  configFiles : list string;
}.

(** An entry of [dependsOn]: a bare target name, or a structured reference. *)
Inductive TargetDependency : Type :=
| TargetName (target : string)
| TargetReference (projects target params : string).

Record TargetMetadata : Type := {
  technologies : list string;
  description : option string;
  nonAtomizedTarget : option string;
}.

Record TargetConfiguration : Type := {
  command : option string;
  executor : option string;
  cache : bool;
  dependsOn : list TargetDependency;
  inputs : list string;
  metadata : TargetMetadata;
}.

Record ProjectMetadata : Type := {
  targetGroups : list (string * list string);
  project_technologies : list string;
}.

Record ProjectConfiguration : Type := {
  name : string;
  targets : list (string * TargetConfiguration);
  project_metadata : ProjectMetadata;
}.

Record CreateNodesResult : Type := {
  projects : list (string * ProjectConfiguration);
}.

(** Modelled from the spec: the task type for which atomization is
    designed (the type of the task in the atomization test). *)
Definition TEST_TASK_TYPE : string := "Test".

(** Modelled from the spec: the "fixed inputs" of every target, with the
    value the test snapshots show. *)
Definition target_inputs : list string := ["default"; "^production"].

(** Modelled from the spec: [dependsOn = ["classes"]]. *)
Definition target_dependsOn : list TargetDependency := [TargetName "classes"].

(** Modelled from the spec: [./gradlew <project>:<task>]. *)
Definition gradle_command (gradleProject task : string) : string :=
  "./gradlew " +:+ gradleProject +:+ ":" +:+ task.

(** Modelled from the spec: the base target of a task. *)
Definition base_target (gradleProject task : string) (cached : bool)
    : TargetConfiguration :=
  {| command := Some (gradle_command gradleProject task);
     executor := None;
     cache := cached;
     dependsOn := target_dependsOn;
     inputs := target_inputs;
     metadata := {| technologies := ["gradle"];
                    description := None;
                    nonAtomizedTarget := None |} |}.

(** Modelled from the spec: the name of the atomized target of a test file,
    [<ciTargetName>--<className>]. *)
Definition atomized_target_name (ci testFile : string) : string :=
  ci +:+ "--" +:+ Path.name_without_extension testFile.

(** Modelled from the spec: the atomized target of one test source file. *)
Definition atomized_target (gradleProject task testFile : string)
    : TargetConfiguration :=
  {| command := Some (gradle_command gradleProject task +:+ " --tests "
                      +:+ Path.name_without_extension testFile);
     executor := None;
     cache := true;
     dependsOn := target_dependsOn;
     inputs := target_inputs;
     metadata := {| technologies := ["gradle"];
                    description :=
                      Some ("Runs Gradle test " +:+ testFile +:+ " in CI");
                    nonAtomizedTarget := None |} |}.

(** Modelled from the spec: the umbrella target over the atomized ones. *)
Definition umbrella_target (task : string) (atomized : list string)
    : TargetConfiguration :=
  {| command := None;
     executor := Some "nx:noop";
     cache := true;
     dependsOn := (fun t => TargetReference "self" t "forward") <$> atomized;
     inputs := target_inputs;
     metadata := {| technologies := ["gradle"];
                    description := Some "Runs Gradle Tests in CI";
                    nonAtomizedTarget := Some task |} |}.

(** Modelled from the spec: the test source files that qualify for a
    project are those within its own directory subtree. *)
Definition qualifying_test_files (projectRoot : string)
    (testFiles : list string) : list string :=
  List.filter (Path.within_subtree projectRoot) testFiles.

(** Modelled from the spec: when atomization applies to a task, the CI
    target name and the qualifying test files it applies with. *)
Definition atomization (options : GradlePluginOptions) (taskType : string)
    (qualifying : list string) : option (string * list string) :=
  match ciTargetName options, qualifying with
  | Some ci, _ :: _ =>
      if String.eqb taskType TEST_TASK_TYPE then Some (ci, qualifying)
      else None
  | _, _ => None
  end.

Definition Targets : Type :=
  (list (string * TargetConfiguration) * list (string * list string))%type.

(** Modelled from the spec: the targets and target-group entries of one
    atomized test file, added to those built so far. *)
Definition add_atomized (gradleProject task taskType ci : string)
    (acc : Targets) (testFile : string) : Targets :=
  let targetName := atomized_target_name ci testFile in
  (JsObject.set targetName (atomized_target gradleProject task testFile) acc.1,
   JsObject.push taskType targetName acc.2).

(** Modelled from the spec: the targets of one task of a project.  With
    atomization: the atomized targets in discovery order, the umbrella
    target, and the base target, no longer cached; the target group of the
    task type receives their names in that order.  Without: the base
    target alone. *)
Definition add_task_targets (options : GradlePluginOptions)
    (gradleProject : string) (qualifying : list string)
    (acc : Targets) (taskAndType : string * string) : Targets :=
  let '(task, taskType) := taskAndType in
  match atomization options taskType qualifying with
  | Some (ci, testFiles) =>
      let acc1 :=
        fold_left (add_atomized gradleProject task taskType ci) testFiles acc in
      let atomized := atomized_target_name ci <$> testFiles in
      let acc2 :=
        (JsObject.set ci (umbrella_target task atomized) acc1.1,
         JsObject.push taskType ci acc1.2) in
      (JsObject.set task (base_target gradleProject task false) acc2.1,
       JsObject.push taskType task acc2.2)
  | None =>
      (JsObject.set task (base_target gradleProject task true) acc.1,
       JsObject.push taskType task acc.2)
  end.

(** Modelled from the spec: the contribution of one matched build file:
    its owning project, keyed by the containing directory of the file. *)
Definition create_nodes_for_build_file (report : GradleReport)
    (options : GradlePluginOptions) (testFiles : list string)
    (buildFile : string) : CreateNodesResult :=
  match gradleFileToGradleProjectMap report !! buildFile with
  | None => {| projects := [] |}
  | Some gradleProject =>
      let projectRoot := Path.dirname buildFile in
      let tasks :=
        default [] (gradleProjectToTasksTypeMap report !! gradleProject) in
      let qualifying := qualifying_test_files projectRoot testFiles in
      let '(targets, groups) :=
        fold_left (add_task_targets options gradleProject qualifying)
                  tasks ([], []) in
      {| projects :=
           [(projectRoot,
             {| name := default gradleProject
                          (gradleProjectToProjectName report !! gradleProject);
                targets := targets;
                project_metadata :=
                  {| targetGroups := groups;
                     project_technologies := ["gradle"] |} |})] |}
  end.

(** Modelled from the spec: a matched file is a build file when its name is
    one of [GRADLE_BUILD_FILES]; the other matched files are test source
    files. *)
Definition is_build_file (file : string) : bool :=
  bool_decide (Path.basename file ∈ GRADLE_BUILD_FILES).

(** Modelled from the spec: [createNodesV2[1]] of
    [packages/gradle/src/plugin/nodes.ts], the function [nodes.spec.ts]
    tests.  The matched files are the build files and the test source
    files; one entry is returned per build file, as in the test.  The Gradle
    report is the one the mocked [getCurrentGradleReport] returns. *)
Definition createNodesFunction (report : GradleReport)
    (files : list string) (options : GradlePluginOptions)
    (context : CreateNodesContext) : list (string * CreateNodesResult) :=
  let buildFiles := List.filter is_build_file files in
  let testFiles := List.filter (fun f => negb (is_build_file f)) files in
  (fun buildFile =>
     (buildFile, create_nodes_for_build_file report options testFiles buildFile))
  <$> buildFiles.

End Gradle.

(** ** The fixtures of [nodes.spec.ts] *)

Module GradleSpec.
Import Gradle.

(** [context], set in [beforeEach] (the temporary directory is arbitrary). *)
Definition context (tempDir : string) : CreateNodesContext :=
  {| namedInputs := [("default", ["{projectRoot}/**/*"]);
                     ("production", ["!{projectRoot}/**/*.spec.ts"])];
     workspaceRoot := tempDir;
     configFiles := [] |}.

(** The report of 'should create nodes based on gradle'. *)
Definition gradleReport_proj : GradleReport :=
  {| gradleFileToGradleProjectMap := {[ "proj/build.gradle" := "proj" ]};
     buildFileToDepsMap := ∅;
     gradleFileToOutputDirsMap :=
       {[ "proj/build.gradle" := [("build", "build")] ]};
     gradleProjectToTasksTypeMap := {[ "proj" := [("test", "Verification")] ]};
     gradleProjectToProjectName := {[ "proj" := "proj" ]} |}.

(** The report of the two tests for a nested project root, with the type of
    the task [test] each of them declares. *)
Definition gradleReport_nested (taskType : string) : GradleReport :=
  {| gradleFileToGradleProjectMap :=
       {[ "nested/nested/proj/build.gradle" := "proj" ]};
     buildFileToDepsMap := ∅;
     gradleFileToOutputDirsMap :=
       {[ "nested/nested/proj/build.gradle" := [("build", "build")] ]};
     gradleProjectToTasksTypeMap := {[ "proj" := [("test", taskType)] ]};
     gradleProjectToProjectName := {[ "proj" := "proj" ]} |}.

Definition options_build_only : GradlePluginOptions :=
  {| buildTargetName := Some "build"; ciTargetName := None |}.

Definition options_ci : GradlePluginOptions :=
  {| buildTargetName := Some "build"; ciTargetName := Some "test-ci" |}.

(** The files handed to the plugin in the atomization test. *)
Definition atomized_files : list string :=
  ["nested/nested/proj/build.gradle";
   "proj/src/test/java/test/rootTest.java";
   "nested/nested/proj/src/test/java/test/test.java";
   "nested/nested/proj/src/test/java/test/test1.java"].

End GradleSpec.

(** ** Prompt selection ([PromptMessages]) *)

Module Prompts.

Record Choice : Type := { value : string; name : string }.

Record Fallback : Type := { fallback_value : string; fallback_key : string }.

Record MessageData : Type := {
  code : string;
  message : string;
  initial : nat;
  choices : list Choice;
  footer : string;
  hint : option string;
  fallback : option Fallback;
}.

(** The line feed of the source's [\n]. *)
Definition nl : string := String "010"%char EmptyString.

Definition ci_footer : string :=
  nl +:+ "Remote caching, task distribution, and test splitting are provided by Nx Cloud. Read more at https://nx.dev/ci".

Definition messageOptions : gmap string (list MessageData) :=
  list_to_map
    [("setupCI",
      [{| code := "which-ci-provider";
          message := "Which CI provider would you like to use?";
          initial := 0;
          choices :=
            [{| value := "github"; name := "GitHub Actions" |};
             {| value := "circleci"; name := "Circle CI" |};
             {| value := "gitlab"; name := "Gitlab" |};
             {| value := "azure"; name := "Azure DevOps" |};
             {| value := "bitbucket-pipelines"; name := "BitBucket Pipelines" |};
             {| value := "skip"; name := nl +:+ "Do it later" |}];
          footer := ci_footer;
          hint := None;
          fallback :=
            Some {| fallback_value := "skip"; fallback_key := "setupNxCloud" |} |};
       {| code := "set-up-ci";
          message := "Set up CI with caching, distribution and test deflaking";
          initial := 0;
          choices :=
            [{| value := "github"; name := "GitHub Actions" |};
             {| value := "circleci"; name := "CircleCI" |};
             {| value := "gitlab"; name := "Gitlab" |};
             {| value := "azure"; name := "Azure DevOps" |};
             {| value := "bitbucket-pipelines"; name := "BitBucket Pipelines" |};
             {| value := "skip"; name := nl +:+ "Do it later" |}];
          footer := ci_footer;
          hint := None;
          fallback :=
            Some {| fallback_value := "skip"; fallback_key := "setupNxCloud" |} |}]);
     ("setupNxCloud",
      [{| code := "enable-caching";
          message := "Would you like remote caching to make your build faster?";
          initial := 0;
          choices :=
            [{| value := "yes"; name := "Yes" |};
             {| value := "skip"; name := "Skip for now" |}];
          footer :=
            nl +:+ "Read more about remote caching at https://nx.dev/ci/features/remote-cache";
          hint := Some (nl +:+ "(it's free and can be disabled any time)");
          fallback := None |}])].

(** How a call completes: with a value, or by throwing. *)
Inductive Completion (A : Type) : Type :=
| Returns (a : A)
| Throws (error : string).
Arguments Returns {A} a.
Arguments Throws {A} error.

(** The source of [Math.random()]: the doubles in [0, 1) it will return,
    each given by its numerator over [2^53]. *)
Definition RandomSource : Type := nat -> Z.

Definition Math_random (rng : RandomSource) : Z * RandomSource :=
  ((rng 0%nat mod 2 ^ 53)%Z, fun i => rng (S i)).

(** [Math.floor(r * n)] for the double [r = numerator / 2^53] and an array
    length [n]; the product is exact for the lengths of [messageOptions]. *)
Definition Math_floor_times (numerator : Z) (n : nat) : nat :=
  Z.to_nat (numerator * Z.of_nat n / 2 ^ 53).

(** An instance of [PromptMessages] together with the random source. *)
Record PromptMessages : Type := {
  selectedMessages : gmap string nat;
  random : RandomSource;
}.

(** [new PromptMessages()] *)
Definition new_PromptMessages (rng : RandomSource) : PromptMessages :=
  {| selectedMessages := ∅; random := rng |}.

(** [getPrompt(key)].  Reading a property of [undefined], which
    [messageOptions[key]] is for an unknown key, throws a [TypeError]; an
    index past the end of the array reads as [undefined] ([None]).  Keys
    that name a property every object inherits (such as [toString]) are not
    message keys and are outside this embedding. *)
Definition getPrompt (env : ProcessEnv) (key : string) (this : PromptMessages)
    : Completion (option MessageData) * PromptMessages :=
  let selection : Completion unit * PromptMessages :=
    match selectedMessages this !! key with
    | Some _ => (Returns tt, this)
    | None =>
        if bool_decide (NX_GENERATE_DOCS_PROCESS env = Some "true") then
          (Returns tt,
           {| selectedMessages := <[key := 0]> (selectedMessages this);
              random := random this |})
        else
          let '(r, rng) := Math_random (random this) in
          match messageOptions !! key with
          | Some msgs =>
              (Returns tt,
               {| selectedMessages :=
                    <[key := Math_floor_times r (length msgs)]>
                      (selectedMessages this);
                  random := rng |})
          | None =>
              (Throws "TypeError",
               {| selectedMessages := selectedMessages this; random := rng |})
          end
    end in
  match selection with
  | (Throws error, this') => (Throws error, this')
  | (Returns _, this') =>
      match messageOptions !! key, selectedMessages this' !! key with
      | Some msgs, Some selected => (Returns (msgs !! selected), this')
      | _, _ => (Throws "TypeError", this')
      end
  end.

(** [codeOfSelectedPromptMessage(key)].  As for [getPrompt], keys that
    name a property every object inherits are outside this embedding. *)
Definition codeOfSelectedPromptMessage (key : string) (this : PromptMessages)
    : Completion string :=
  match selectedMessages this !! key with
  | None => Returns ""
  | Some selected =>
      match messageOptions !! key with
      | Some msgs =>
          match msgs !! selected with
          | Some m => Returns (code m)
          | None => Throws "TypeError"
          end
      | None => Throws "TypeError"
      end
  end.

(** A run: the prompts returned by successive [getPrompt] calls on one
    instance. *)
Fixpoint getPrompts (env : ProcessEnv) (keys : list string)
    (this : PromptMessages)
    : list (Completion (option MessageData)) * PromptMessages :=
  match keys with
  | [] => ([], this)
  | key :: keys' =>
      let '(r, this') := getPrompt env key this in
      let '(rs, this'') := getPrompts env keys' this' in
      (r :: rs, this'')
  end.

End Prompts.

(** ** Vocabulary of the statements *)

Module Statements.
Import InternalApi.

(** The batched node-creation function a loaded plugin's [createNodes]
    capability is built over: the plugin's own batched hook when it has one,
    else the fan-out utility applied to its single-file hook. *)
Definition underlying_createNodes `{Imports} (plugin : NormalizedPlugin)
    (pluginDefinition : PluginConfiguration)
    : option (list string -> CreateNodesContextV2 ->
              Async (list (string * CreateNodesResult))) :=
  match plugin_createNodesV2 plugin, plugin_createNodes plugin with
  | Some (_, fn), _ =>
      Some (fun files context =>
              fn files (this_options pluginDefinition) context)
  | None, Some (_, fn) =>
      Some (fun files context =>
              createNodesFromFiles fn files (this_options pluginDefinition)
                                   context)
  | None, None => None
  end.

(** The timeline as the wrapped call leaves it for the underlying function. *)
Definition started `{ImportedTypes} (plugin : NormalizedPlugin)
    (tl : list PerfEntry)
    : list PerfEntry :=
  tl ++ [Mark (plugin_name plugin +:+ ":createNodes - start")].

(** The marks the wrapper leaves when the call is over. *)
Definition finished (pluginName : string) (tl : list PerfEntry)
    : list PerfEntry :=
  tl ++ [Mark (pluginName +:+ ":createNodes - end")]
     ++ [Measure (pluginName +:+ ":createNodes")
                 (pluginName +:+ ":createNodes - start")
                 (pluginName +:+ ":createNodes - end")].

(** The same raw plugin with another single-file hook. *)
Definition with_createNodes `{ImportedTypes}
    (legacy : option (string * CreateNodesFunction))
    (plugin : NormalizedPlugin) : NormalizedPlugin :=
  {| plugin_name := plugin_name plugin;
     plugin_createNodes := legacy;
     plugin_createNodesV2 := plugin_createNodesV2 plugin;
     plugin_createDependencies := plugin_createDependencies plugin;
     plugin_createMetadata := plugin_createMetadata plugin;
     plugin_processProjectGraph := plugin_processProjectGraph plugin |}.

(** The load of one plugin specification: what the per-plugin loading
    method yields, flattened over its two stages. *)
Definition load_of `{Imports} (env : ProcessEnv)
    (spec : PluginConfiguration) (root : string) : Outcome LoadedNxPlugin :=
  match loadingMethod env spec root with
  | Resolved (loadedPluginPromise, _) => loadedPluginPromise
  | Rejected e => Rejected e
  end.

(** Every index below [n] occurs in the completion order [sched]: every one
    of the [n] promises settles. *)
Definition all_settle (n : nat) (sched : list nat) : Prop :=
  Forall (fun i => i ∈ sched) (seq 0 n).

(** The specifications [loadNxPlugins] loads, for the plugins and the root
    it is called with. *)
Definition specifications `{Imports}
    (plugins : option (list PluginConfiguration)) (root : option string)
    : list PluginConfiguration :=
  normalizePlugins plugins (default InternalApi.workspaceRoot root).

(** The load of [spec] settles as [o], under the root [loadNxPlugins] is
    called with. *)
Definition loads `{Imports} (env : ProcessEnv) (root : option string)
    (spec : PluginConfiguration) (o : Outcome LoadedNxPlugin) : Prop :=
  load_of env spec (default InternalApi.workspaceRoot root) = o.

(** The prompt at index 0 of the options of [key], as [getPrompt] would
    return it. *)
Definition first_option (key : string)
    : Prompts.Completion (option Prompts.MessageData) :=
  match Prompts.messageOptions !! key with
  | Some msgs => Prompts.Returns (msgs !! 0)
  | None => Prompts.Throws "TypeError"
  end.

End Statements.

(** ** Sample plugins and imports, on which the statements are exercised *)

Module Samples.
Import InternalApi.

#[local] Instance sample_types : ImportedTypes :=
  {| Options := string;
     CreateNodesResult := list string;
     CreateNodesContext := unit;
     CreateNodesContextV2 := unit;
     CreateDependenciesContext := unit;
     CreateMetadataContext := unit;
     ProjectGraph := unit;
     RawProjectGraphDependencies := unit;
     ProjectsMetadata := unit;
     ProjectGraphProcessor := unit;
     World := list string |}.

(** A batched hook that fails with a plain error. *)
Definition failing_hook : CreateNodesFunctionV2 :=
  fun _ _ _ => throw (OtherError "gradle report unavailable").

(** A batched hook in the manner of the Gradle plugin: of the matched files
    it answers for the build files only. *)
Definition build_files_hook : CreateNodesFunctionV2 :=
  fun files _ _ =>
    mret ((fun f => (f, [Path.dirname f]))
          <$> List.filter (fun f => String.eqb (Path.basename f) "build.gradle")
                          files).

(** A batched hook with one entry per matched file. *)
Definition per_file_hook : CreateNodesFunctionV2 :=
  fun files _ _ => mret ((fun f => (f, [Path.dirname f])) <$> files).

(** A single-file hook. *)
Definition legacy_hook : CreateNodesFunction :=
  fun file _ _ => mret [file].

Definition sample_plugin (pluginName : string)
    (legacy : option (string * CreateNodesFunction))
    (v2 : option (string * CreateNodesFunctionV2)) : NormalizedPlugin :=
  {| plugin_name := pluginName;
     plugin_createNodes := legacy;
     plugin_createNodesV2 := v2;
     plugin_createDependencies := None;
     plugin_createMetadata := None;
     plugin_processProjectGraph := None |}.

Definition gradle_failing : NormalizedPlugin :=
  sample_plugin "gradle" None (Some ("**/build.gradle", failing_hook)).

Definition gradle_like : NormalizedPlugin :=
  sample_plugin "gradle" None (Some ("**/build.gradle", build_files_hook)).

Definition js_legacy : NormalizedPlugin :=
  sample_plugin "js" (Some ("package.json", legacy_hook)) None.

Definition js_definition : PluginConfiguration :=
  ExpandedPluginConfiguration "@nx/js" (Some "opts") None None.

Definition batched_only : NormalizedPlugin :=
  sample_plugin "both" None (Some ("**/build.gradle", per_file_hook)).

(** A fan-out that calls the single-file hook on each file in turn and
    stops at the first failure. *)
Fixpoint sequential_fan_out (fn : CreateNodesFunction) (files : list string)
    (opts : option Options) (context : CreateNodesContextV2)
    : Async (list (string * CreateNodesResult)) :=
  match files with
  | [] => mret []
  | file :: files' =>
      value ← fn file opts context;
      rest ← sequential_fan_out fn files' opts context;
      mret ((file, value) :: rest)
  end.

(** A loading method: the plugin named "missing" cannot be resolved, the
    plugin named "broken" fails while it loads, every other one loads. *)
Definition sample_load (spec : PluginConfiguration) (root : string)
    : Outcome (Outcome LoadedNxPlugin * (World -> World)) :=
  let path :=
    match spec with
    | PluginPath p => p
    | ExpandedPluginConfiguration p _ _ _ => p
    end in
  if String.eqb path "missing" then
    Rejected (OtherError "Cannot find module")
  else
    Resolved
      (if String.eqb path "broken" then
         Rejected (OtherError "plugin threw while loading")
       else
         Resolved
           {| name := path; createNodes := None; createDependencies := None;
              createMetadata := None; processProjectGraph := None;
              options := this_options spec; include := this_include spec;
              exclude := this_exclude spec |},
       fun w => path :: w).

#[local] Instance sample_imports : Imports :=
  {| createNodesFromFiles := sequential_fan_out;
     join := fun dir rel => dir +:+ "/" +:+ rel;
     __dirname := "/nx/src/project-graph/plugins";
     InternalApi.workspaceRoot := "/workspace";
     shouldMergeAngularProjects := fun _ _ => false;
     loadNxPluginInIsolation := sample_load;
     loadNxPlugin := sample_load;
     unregisterPluginTSTranspiler := None |}.

Definition isolated_env : ProcessEnv :=
  {| NX_ISOLATE_PLUGINS := None; NX_GENERATE_DOCS_PROCESS := None |}.

Definition in_process_env : ProcessEnv :=
  {| NX_ISOLATE_PLUGINS := Some "false"; NX_GENERATE_DOCS_PROCESS := None |}.

(** An in-process loading method that can be told from [sample_load]: it
    loads every plugin, under a name that says so, and yields a cleanup
    that does nothing. *)
Definition in_process_load (spec : PluginConfiguration) (root : string)
    : Outcome (Outcome LoadedNxPlugin * (World -> World)) :=
  let path :=
    match spec with
    | PluginPath p => p
    | ExpandedPluginConfiguration p _ _ _ => p
    end in
  Resolved
    (Resolved
       {| name := "in-process:" +:+ path; createNodes := None;
          createDependencies := None; createMetadata := None;
          processProjectGraph := None;
          options := this_options spec; include := this_include spec;
          exclude := this_exclude spec |},
     fun w => w).

(** The sample imports with the two loading methods distinct. *)
Definition two_loaders : Imports :=
  {| createNodesFromFiles := sequential_fan_out;
     join := fun dir rel => dir +:+ "/" +:+ rel;
     __dirname := "/nx/src/project-graph/plugins";
     InternalApi.workspaceRoot := "/workspace";
     shouldMergeAngularProjects := fun _ _ => false;
     loadNxPluginInIsolation := sample_load;
     loadNxPlugin := in_process_load;
     unregisterPluginTSTranspiler := None |}.

(** A batched hook that reports the options it is called with. *)
Definition options_hook : CreateNodesFunctionV2 :=
  fun files opts _ =>
    mret ((fun f => (f, [default "(no options)" opts])) <$> files).

Definition options_reporter : NormalizedPlugin :=
  sample_plugin "reporter" None (Some ("**/*", options_hook)).

Definition docs_env : ProcessEnv :=
  {| NX_ISOLATE_PLUGINS := None; NX_GENERATE_DOCS_PROCESS := Some "true" |}.

End Samples.

(** ** Usage statistics ([recordStat], [shouldRecordStats]) and the choices
    of the prompts *)

Module AbTesting.
Import Prompts.

Definition NxCloudChoices : list string :=
  ["github"; "circleci"; "gitlab"; "azure"; "bitbucket-pipelines"; "skip";
   "yes"].

(** The one member of the package manager commands that is read:
    [getRegistryUrl], a shell command or [undefined]. *)
Record PackageManagerCommands : Type := {
  getRegistryUrl : option string;
}.

(** A string is falsy exactly when it is empty. *)
Definition truthy (s : string) : bool := negb (String.eqb s "").

Record StatOptions : Type := {
  command : string;
  nxVersion : string;
  useCloud : bool;
  meta : list string;
}.

Record AxiosConfig : Type := { baseURL : string; timeout : nat }.

Record StatsBody : Type := {
  body_command : string;
  body_isCI : bool;
  body_useCloud : bool;
  body_meta : string;
}.

(** A request sent through an axios instance: the instance's configuration,
    the path posted to and the body. *)
Record AxiosRequest : Type := {
  config : AxiosConfig;
  url : string;
  body : StatsBody;
}.

(** What the two functions reach outside of the file: the package manager
    commands, [execSync], [String.prototype.trim], the host name of
    [new URL(s)] (the constructor throws on an invalid URL), [isCI()],
    [require('axios')] and how a posted request settles. *)
Class StatsImports : Type := {
  getPackageManagerCommand : Completion PackageManagerCommands;
  execSync : string -> Completion string;
  trim : string -> string;
  URL_hostname : string -> Completion string;
  isCI : bool;
  require_axios : Completion unit;
  axios_post : AxiosRequest -> Completion unit;
}.

(** [shouldRecordStats()] *)
Definition shouldRecordStats `{StatsImports} : Completion bool :=
  match getPackageManagerCommand with
  | Throws e => Throws e
  | Returns pmc =>
      match getRegistryUrl pmc with
      | None => Returns true
      | Some registryCommand =>
          if truthy registryCommand then
            match execSync registryCommand with
            | Throws _ => Returns true
            | Returns stdout =>
                match URL_hostname (trim stdout) with
                | Throws _ => Returns true
                | Returns hostname =>
                    Returns (negb (String.eqb hostname "localhost"))
                end
            end
          else Returns true
      end
  end.

(** [Array.prototype.join] *)
Fixpoint join_with (sep : string) (l : list string) : string :=
  match l with
  | [] => ""
  | x :: rest =>
      match rest with
      | [] => x
      | _ :: _ => x +:+ sep +:+ join_with sep rest
      end
  end.

(** The requests sent and the lines written by [console.error]. *)
Record StatsWorld : Type := {
  requests : list AxiosRequest;
  console_error : list string;
}.

(** [recordStat(opts)], under the value of [process.env.NX_VERBOSE_LOGGING]. *)
Definition recordStat `{StatsImports} (NX_VERBOSE_LOGGING : option string)
    (opts : StatOptions) (w : StatsWorld) : Completion unit * StatsWorld :=
  let tried : Completion unit * StatsWorld :=
    match shouldRecordStats with
    | Throws e => (Throws e, w)
    | Returns false => (Returns tt, w)
    | Returns true =>
        match require_axios with
        | Throws e => (Throws e, w)
        | Returns _ =>
            let request :=
              {| config := {| baseURL := "https://cloud.nx.app";
                              timeout := 400 |};
                 url := "/nx-cloud/stats";
                 body := {| body_command := command opts;
                            body_isCI := isCI;
                            body_useCloud := useCloud opts;
                            body_meta :=
                              join_with ","
                                (List.filter truthy (meta opts)) |} |} in
            (axios_post request,
             {| requests := requests w ++ [request];
                console_error := console_error w |})
        end
    end in
  match tried with
  | (Returns u, w') => (Returns u, w')
  | (Throws e, w') =>
      if bool_decide (NX_VERBOSE_LOGGING = Some "true") then
        (Returns tt,
         {| requests := requests w';
            console_error := console_error w' ++ [e] |})
      else (Returns tt, w')
  end.

End AbTesting.

(** ** The Nuxt init generator ([nuxtInitGenerator]) *)

Module NuxtInit.
Import Prompts.

(** The members of [InitSchema] the generator reads. *)
Record InitSchema : Type := {
  skipPackageJson : option bool;
  updatePackageScripts : option bool;
}.

(** The virtual file tree, what an install task acts on, and the type of
    the plugin's [createNodes]. *)
Class NuxtTypes : Type := {
  Tree : Type;
  Machine : Type;
  CreateNodes : Type;
}.

(** What the generator imports: [createNodes] of the Nuxt plugin,
    [addPlugin] of the devkit (it mutates the tree and may reject) and
    [updateDependencies] (it mutates the tree and returns the install
    task, or throws). *)
Class NuxtImports `{NuxtTypes} : Type := {
  createNodes : CreateNodes;
  addPlugin :
    Tree -> string -> CreateNodes -> list (string * list string) ->
    option bool -> Completion unit * Tree;
  updateDependencies :
    Tree -> InitSchema -> Completion (Machine -> Machine) * Tree;
}.

(** [nuxtInitGenerator(host, schema)]: how the call settles, and the tree
    as it leaves it. *)
Definition nuxtInitGenerator `{NuxtImports} (host : Tree) (schema : InitSchema)
    : Completion (Machine -> Machine) * Tree :=
  match addPlugin host "@nx/nuxt/plugin" createNodes
          [("buildTargetName", ["build"; "nuxt:build"; "nuxt-build"]);
           ("serveTargetName", ["serve"; "nuxt:serve"; "nuxt-serve"])]
          (updatePackageScripts schema) with
  | (Throws e, host') => (Throws e, host')
  | (Returns _, host') =>
      let installTask : Machine -> Machine := fun m => m in
      if negb (default false (skipPackageJson schema))
      then updateDependencies host' schema
      else (Returns installTask, host')
  end.

End NuxtInit.

(** ** Further vocabulary of the statements *)

Module MoreStatements.
Import InternalApi.

(** The cleanup callback the load of the [i]-th specification yields. *)
Definition cleanup_at `{Imports} (env : ProcessEnv) (dir : string)
    (specs : list PluginConfiguration) (i : nat) : option (World -> World) :=
  match specs !! i with
  | Some spec =>
      match loadingMethod env spec dir with
      | Resolved (_, cleanup) => Some cleanup
      | Rejected _ => None
      end
  | None => None
  end.

(** The same imports with other loading methods. *)
Definition with_loaders `{types : ImportedTypes} (imports : Imports)
    (inIsolation inProcess :
       PluginConfiguration -> string ->
       Outcome (Outcome LoadedNxPlugin * (World -> World))) : Imports :=
  {| createNodesFromFiles := @createNodesFromFiles _ imports;
     join := @join _ imports;
     __dirname := @__dirname _ imports;
     workspaceRoot := @workspaceRoot _ imports;
     shouldMergeAngularProjects := @shouldMergeAngularProjects _ imports;
     loadNxPluginInIsolation := inIsolation;
     loadNxPlugin := inProcess;
     unregisterPluginTSTranspiler := @unregisterPluginTSTranspiler _ imports |}.

(** The result of a [loadNxPlugins] call, for the specifications [specs]
    and the root [dir], is that of loading through [loader]: the plugins of
    a fulfilled call are, index by index, those [loader] yields for the
    specifications; what a rejected call rejects with is what [loader]
    rejected with for one of the specifications, or what the promise it
    yielded for one of them rejected with; and the call is fulfilled when
    [loader] yields a plugin for every specification and everything
    settles. *)
Definition loads_through `{ImportedTypes}
    (loader : PluginConfiguration -> string ->
              Outcome (Outcome LoadedNxPlugin * (World -> World)))
    (sched1 sched2 : list nat) (specs : list PluginConfiguration)
    (dir : string)
    (result : option (Outcome (list (option LoadedNxPlugin)
                               * (World -> World))))
    : Prop :=
  (forall loaded cleanup,
     result = Some (Resolved (loaded, cleanup)) ->
     length loaded = length specs
     /\ forall i spec, specs !! i = Some spec ->
          exists p c, loader spec dir = Resolved (Resolved p, c)
                      /\ loaded !! i = Some (Some p))
  /\ (forall e,
        result = Some (Rejected e) ->
        exists i spec,
          specs !! i = Some spec
          /\ (loader spec dir = Rejected e
              \/ exists c, loader spec dir = Resolved (Rejected e, c)))
  /\ (Statements.all_settle (length specs) sched1 ->
      Statements.all_settle (length specs) sched2 ->
      (forall spec, spec ∈ specs ->
         exists p c, loader spec dir = Resolved (Resolved p, c)) ->
      exists loaded cleanup, result = Some (Resolved (loaded, cleanup))).

(** The property names every object inherits from [Object.prototype]. *)
Definition inherited_properties : list string :=
  ["constructor"; "__proto__"; "hasOwnProperty"; "isPrototypeOf";
   "propertyIsEnumerable"; "toLocaleString"; "toString"; "valueOf";
   "__defineGetter__"; "__defineSetter__"; "__lookupGetter__";
   "__lookupSetter__"].

(** The same imports of the Nuxt generator with another
    [updateDependencies]. *)
Definition with_updateDependencies `{types : NuxtInit.NuxtTypes}
    (imports : NuxtInit.NuxtImports)
    (f : NuxtInit.Tree -> NuxtInit.InitSchema ->
         Prompts.Completion (NuxtInit.Machine -> NuxtInit.Machine)
         * NuxtInit.Tree)
    : NuxtInit.NuxtImports :=
  {| NuxtInit.createNodes := @NuxtInit.createNodes _ imports;
     NuxtInit.addPlugin := @NuxtInit.addPlugin _ imports;
     NuxtInit.updateDependencies := f |}.

End MoreStatements.

(** ** Further samples *)

Module MoreSamples.
Import Prompts.

(** A machine whose registry is the local one ([localhost]); axios loads
    and the request times out. *)
#[local] Instance local_registry : AbTesting.StatsImports :=
  {| AbTesting.getPackageManagerCommand :=
       Returns {| AbTesting.getRegistryUrl := Some "npm config get registry" |};
     AbTesting.execSync := fun _ => Returns "http://localhost:4873/";
     AbTesting.trim := fun s => s;
     AbTesting.URL_hostname :=
       fun s => if String.eqb s "http://localhost:4873/"
                then Returns "localhost" else Returns "registry.npmjs.org";
     AbTesting.isCI := false;
     AbTesting.require_axios := Returns tt;
     AbTesting.axios_post := fun _ => Throws "timeout of 400ms exceeded" |}.

(** A machine whose registry command fails; axios loads and the request
    times out. *)
#[local] Instance failing_registry_command : AbTesting.StatsImports :=
  {| AbTesting.getPackageManagerCommand :=
       Returns {| AbTesting.getRegistryUrl := Some "npm config get registry" |};
     AbTesting.execSync := fun _ => Throws "Command failed";
     AbTesting.trim := fun s => s;
     AbTesting.URL_hostname := fun _ => Returns "registry.npmjs.org";
     AbTesting.isCI := true;
     AbTesting.require_axios := Returns tt;
     AbTesting.axios_post := fun _ => Throws "timeout of 400ms exceeded" |}.

Definition stat_options : AbTesting.StatOptions :=
  {| AbTesting.command := "create-nx-workspace";
     AbTesting.nxVersion := "19.0.0";
     AbTesting.useCloud := true;
     AbTesting.meta := ["setupCI"; ""; "which-ci-provider"] |}.

Definition empty_world : AbTesting.StatsWorld :=
  {| AbTesting.requests := []; AbTesting.console_error := [] |}.

(** A tree as the list of the files written to it. *)
#[local] Instance file_list_tree : NuxtInit.NuxtTypes :=
  {| NuxtInit.Tree := list string;
     NuxtInit.Machine := list string;
     NuxtInit.CreateNodes := unit |}.

#[local] Instance nuxt_imports : NuxtInit.NuxtImports :=
  {| NuxtInit.createNodes := tt;
     NuxtInit.addPlugin :=
       fun host pluginName _ _ _ =>
         if bool_decide ("nx.json" ∈ host)
         then (Returns tt, host ++ ["nx.json: " +:+ pluginName])
         else (Throws "Cannot read nx.json", host);
     NuxtInit.updateDependencies :=
       fun host _ =>
         (Returns (fun m => m ++ ["install"]), host ++ ["package.json"]) |}.

End MoreSamples.

(** * Part II: the properties *)

(** ** The loaded-plugin adapter *)

Module AdapterFacts.
Import InternalApi Statements.

Section Adapter.
Context {types : ImportedTypes} {imports : Imports}.

Lemma bind_resolved {A B} (m : Async A) (k : A -> Async B) tl a tl' :
  m tl = (Resolved a, tl') -> (m ≫= k) tl = k a tl'.
Proof. intros Hm. unfold mbind, Async_bind. by rewrite Hm. Qed.

Lemma bind_rejected {A B} (m : Async A) (k : A -> Async B) tl e tl' :
  m tl = (Rejected e, tl') -> (m ≫= k) tl = (Rejected e, tl').
Proof. intros Hm. unfold mbind, Async_bind. by rewrite Hm. Qed.

Lemma contain_errors_resolved pluginName inner files context tl a tl' :
  inner files context (tl ++ [Mark (pluginName +:+ ":createNodes - start")])
    = (Resolved a, tl') ->
  contain_errors pluginName inner files context tl
    = (Resolved a, finished pluginName tl').
Proof.
  intros Hin. unfold contain_errors, finished.
  unfold mbind at 1, Async_bind, performance_mark at 1, try_catch_finally.
  rewrite Hin. unfold mbind, Async_bind, performance_mark, performance_measure.
  cbn. by rewrite <- app_assoc.
Qed.

Lemma contain_errors_rejected pluginName inner files context tl e tl' :
  inner files context (tl ++ [Mark (pluginName +:+ ":createNodes - start")])
    = (Rejected e, tl') ->
  contain_errors pluginName inner files context tl
    = (Rejected (if isAggregateCreateNodesError e then e
                 else AggregateCreateNodesError [(None, e)] []),
       finished pluginName tl').
Proof.
  intros Hin. unfold contain_errors, finished.
  unfold mbind at 1, Async_bind, performance_mark at 1, try_catch_finally.
  rewrite Hin.
  unfold mbind, Async_bind, performance_mark, performance_measure, throw.
  destruct (isAggregateCreateNodesError e); cbn; by rewrite <- app_assoc.
Qed.

(** The capability of a loaded plugin, in terms of the underlying batched
    function: the pattern is the hook's, the function tags the underlying
    results and is wrapped for error containment. *)
Lemma createNodes_new_LoadedNxPlugin plugin def :
  createNodes (new_LoadedNxPlugin plugin def) =
  match underlying_createNodes plugin def with
  | Some under =>
      Some (match plugin_createNodesV2 plugin, plugin_createNodes plugin with
            | Some (pattern, _), _ => pattern
            | None, Some (pattern, _) => pattern
            | None, None => ""
            end,
            contain_errors (plugin_name plugin)
              (fun files context =>
                 results ← under files context;
                 mret (tag_results (plugin_name plugin) results)))
  | None => None
  end.
Proof.
  unfold new_LoadedNxPlugin, underlying_createNodes, createNodes_from_v2,
    createNodes_from_legacy. cbn.
  destruct (plugin_createNodesV2 plugin) as [[pat2 fn2]|],
    (plugin_createNodes plugin) as [[pat1 fn1]|]; reflexivity.
Qed.

Lemma tag_results_files this_name (raw : list (string * CreateNodesResult)) :
  (tag_results this_name raw).*1.*2 = raw.*1.
Proof.
  unfold tag_results. induction raw as [|r raw IH]; [done|].
  cbn. f_equal. apply IH.
Qed.

(** C2 (adapter error containment).  For every raw plugin whose loaded
    form has a [createNodes] capability: when the underlying batched
    node-creation function throws [e], the wrapped call rejects; with the
    aggregate error whose per-file error list is [[null, e]] and whose
    partial results are empty when [e] is not an aggregate error, and with
    [e] itself, unchanged, when it is one. *)
Theorem adapter_error_containment plugin def pattern fn under
    files context tl e tl' :
  createNodes (new_LoadedNxPlugin plugin def) = Some (pattern, fn) ->
  underlying_createNodes plugin def = Some under ->
  under files context (started plugin tl) = (Rejected e, tl') ->
  (isAggregateCreateNodesError e = false ->
   (fn files context tl).1
     = Rejected (AggregateCreateNodesError [(None, e)] []))
  /\ (isAggregateCreateNodesError e = true ->
      (fn files context tl).1 = Rejected e).
Proof.
  intros Hcap Hunder Hthrow.
  rewrite createNodes_new_LoadedNxPlugin, Hunder in Hcap.
  injection Hcap as _ <-.
  erewrite contain_errors_rejected
    by (eapply bind_rejected; exact Hthrow).
  split; intros ->; reflexivity.
Qed.

(** C6, as amended (shape of the batched result).  The wrapped function
    returns one entry per entry the underlying batched function returned, in
    the same order, each made of the invoking plugin's name and the file and
    result of the underlying entry.  Hence every entry's first component is
    the plugin's name, and the files of the entries are the input files, in
    input order, exactly when the underlying function answered so. *)
Theorem batched_result_tagging plugin def pattern fn under
    files context tl raw tl' :
  createNodes (new_LoadedNxPlugin plugin def) = Some (pattern, fn) ->
  underlying_createNodes plugin def = Some under ->
  under files context (started plugin tl) = (Resolved raw, tl') ->
  exists res,
    fn files context tl = (Resolved res, finished (plugin_name plugin) tl')
    /\ res = (fun r => (name (new_LoadedNxPlugin plugin def), r.1, r.2)) <$> raw
    /\ length res = length raw
    /\ Forall (fun r => r.1.1 = name (new_LoadedNxPlugin plugin def)) res
    /\ res.*1.*2 = raw.*1
    /\ (res.*1.*2 = files <-> raw.*1 = files).
Proof.
  intros Hcap Hunder Hres.
  rewrite createNodes_new_LoadedNxPlugin, Hunder in Hcap.
  injection Hcap as _ <-.
  eexists. split.
  { apply contain_errors_resolved.
    erewrite bind_resolved by exact Hres. reflexivity. }
  pose proof (tag_results_files (plugin_name plugin) raw) as Hfiles.
  split; [reflexivity|]. split; [|split; [|split]].
  - unfold tag_results. by rewrite length_map.
  - unfold tag_results. apply Forall_forall. intros r Hr.
    apply list_elem_of_fmap in Hr as (r0 & -> & _). reflexivity.
  - exact Hfiles.
  - by rewrite Hfiles.
Qed.

(** C10 (the batched hook takes precedence).  When a raw plugin has the
    batched hook [createNodesV2], the [createNodes] capability of its loaded
    form has the pattern of that hook and runs that hook (tagging what it
    returns, inside the error-containing wrapper); it is the same whatever
    single-file hook the plugin also carries, and whatever the fan-out
    utility is through which alone a single-file hook is run. *)
Theorem batched_hook_precedence plugin def pattern fn2 :
  plugin_createNodesV2 plugin = Some (pattern, fn2) ->
  createNodes (new_LoadedNxPlugin plugin def)
    = Some (pattern,
            contain_errors (plugin_name plugin)
              (fun files context =>
                 result ← fn2 files (this_options def) context;
                 mret (tag_results (plugin_name plugin) result)))
  /\ forall (other : Imports) legacy,
       createNodes
         (@new_LoadedNxPlugin _ other (with_createNodes legacy plugin) def)
       = createNodes (new_LoadedNxPlugin plugin def).
Proof.
  intros Hv2. split.
  - unfold new_LoadedNxPlugin, createNodes_from_v2. cbn. by rewrite Hv2.
  - intros other legacy.
    unfold new_LoadedNxPlugin, createNodes_from_v2, with_createNodes. cbn.
    by rewrite Hv2.
Qed.

End Adapter.

Section AdapterExamples.
Import Samples.
#[local] Existing Instance sample_types.
#[local] Existing Instance sample_imports.

Lemma adapter_error_containment_witness :
  exists fn,
    createNodes (new_LoadedNxPlugin gradle_failing (PluginPath "@nx/gradle"))
      = Some ("**/build.gradle", fn)
    /\ (fn ["proj/build.gradle"] tt []).1
       = Rejected (AggregateCreateNodesError
                     [(None, OtherError "gradle report unavailable")] []).
Proof.
  eexists. split; [reflexivity|].
  refine (proj1 (adapter_error_containment
                   gradle_failing (PluginPath "@nx/gradle") _ _
                   (fun files context => failing_hook files None context)
                   ["proj/build.gradle"] tt []
                   (OtherError "gradle report unavailable")
                   [Mark "gradle:createNodes - start"] _ _ _) _);
    reflexivity.
Defined.

(** C6, as stated, fails: a plugin with a batched hook that answers for the
    build files only, as the Gradle plugin does in its own test, returns one
    entry for the four matched files of that test. *)
Lemma batched_result_shape_counterexample :
  exists fn res tl',
    createNodes (new_LoadedNxPlugin gradle_like (PluginPath "@nx/gradle"))
      = Some ("**/build.gradle", fn)
    /\ fn GradleSpec.atomized_files tt [] = (Resolved res, tl')
    /\ length GradleSpec.atomized_files = 4
    /\ length res = 1
    /\ res.*1.*2 <> GradleSpec.atomized_files.
Proof.
  eexists _, _, _. split; [reflexivity|]. split; [vm_compute; reflexivity|].
  repeat split. vm_compute. discriminate.
Qed.

Lemma batched_result_tagging_witness :
  exists fn res tl',
    createNodes (new_LoadedNxPlugin js_legacy js_definition)
      = Some ("package.json", fn)
    /\ fn ["a/package.json"; "b/package.json"] tt [] = (Resolved res, tl')
    /\ res = [("js", "a/package.json", ["a/package.json"]);
              ("js", "b/package.json", ["b/package.json"])].
Proof.
  destruct (batched_result_tagging (imports := sample_imports)
              js_legacy js_definition
              "package.json" _
              (fun files context =>
                 sequential_fan_out legacy_hook files (Some "opts") context)
              ["a/package.json"; "b/package.json"] tt []
              [("a/package.json", ["a/package.json"]);
               ("b/package.json", ["b/package.json"])]
              [Mark "js:createNodes - start"]
              eq_refl eq_refl eq_refl)
    as (res & Hrun & Hres & _).
  eexists _, res, _. split; [reflexivity|]. split; [exact Hrun|exact Hres].
Defined.

Lemma batched_hook_precedence_witness :
  createNodes (new_LoadedNxPlugin
                 (Statements.with_createNodes
                    (Some ("legacy.json", legacy_hook)) batched_only)
                 (PluginPath "both"))
  = createNodes (new_LoadedNxPlugin batched_only (PluginPath "both")).
Proof.
  exact (proj2 (batched_hook_precedence batched_only (PluginPath "both")
                  "**/build.gradle" per_file_hook eq_refl)
               sample_imports (Some ("legacy.json", legacy_hook))).
Defined.

End AdapterExamples.
End AdapterFacts.

(** ** Plugin resolution and loading *)

Module LoaderFacts.
Import InternalApi Statements.

Section PromiseAll.
Context {types : ImportedTypes} {S A : Type}.
Implicit Types (promises : list (S -> Outcome A * S)) (sched : list nat).
Implicit Types (values : list (option A)) (s : S).

(** A rule for fulfilment: a property of the values gathered so far and of
    the shared state that every fulfilled promise preserves holds when the
    combined promise is fulfilled. *)
Lemma Promise_all_from_rule (P : list (option A) -> S -> Prop)
    promises sched values s vs s' :
  P values s ->
  (forall i p vals s0 a s1,
     promises !! i = Some p -> vals !! i = Some None -> P vals s0 ->
     p s0 = (Resolved a, s1) -> P (<[i := Some a]> vals) s1) ->
  Promise_all_from promises sched values s = (Some (Resolved vs), s') ->
  exists vals', P vals' s' /\ mapM id vals' = Some vs.
Proof.
  intros HP Hstep. revert values s HP.
  induction sched as [|i sched IH]; intros values s HP; cbn.
  - destruct (mapM id values) as [vs0|] eqn:Hm; cbn; [|discriminate].
    intros [= <- <-]. eauto.
  - destruct (values !! i) as [[x|]|] eqn:Hv; try (by apply IH).
    destruct (promises !! i) as [p|] eqn:Hp; [|by apply IH].
    destruct (p s) as [[a|e] s1] eqn:Hps; [|discriminate].
    apply IH. eapply Hstep; eauto.
Qed.

(** Whatever the combined promise rejects with is the rejection of one of
    the promises. *)
Lemma Promise_all_from_rejected promises sched values s e s' :
  Promise_all_from promises sched values s = (Some (Rejected e), s') ->
  exists i p s0 s1,
    i ∈ sched /\ promises !! i = Some p /\ p s0 = (Rejected e, s1).
Proof.
  revert values s.
  induction sched as [|i sched IH]; intros values s; cbn.
  - destruct (mapM id values); discriminate.
  - assert (Hrec : forall values s,
      Promise_all_from promises sched values s = (Some (Rejected e), s') ->
      exists j p s0 s1,
        j ∈ i :: sched /\ promises !! j = Some p /\ p s0 = (Rejected e, s1)).
    { intros values0 s0 Hrun.
      destruct (IH _ _ Hrun) as (j & p & t0 & t1 & Hj & Hp & Hr).
      exists j, p, t0, t1. split; [by apply list_elem_of_further|done]. }
    destruct (values !! i) as [[x|]|] eqn:Hv; try (by apply Hrec).
    destruct (promises !! i) as [p|] eqn:Hp; [|by apply Hrec].
    destruct (p s) as [[a|e0] s1] eqn:Hps; [by apply Hrec|].
    intros [= <- <-]. exists i, p, s, s1.
    split; [apply list_elem_of_here|done].
Qed.

(** Fail-fast: once a promise that rejects settles, the combined promise
    is rejected, whether or not the other promises ever settle. *)
Lemma Promise_all_from_rejects promises sched values s i p :
  i ∈ sched -> values !! i = Some None -> promises !! i = Some p ->
  (forall s0, exists e s1, p s0 = (Rejected e, s1)) ->
  exists e s', Promise_all_from promises sched values s = (Some (Rejected e), s').
Proof.
  intros Hin Hv Hp Hrej. revert values s Hin Hv.
  induction sched as [|j sched IH]; intros values s Hin Hv.
  { by apply elem_of_nil in Hin. }
  cbn. destruct (decide (j = i)) as [->|Hne].
  - rewrite Hv, Hp. destruct (Hrej s) as (e & s1 & ->). eauto.
  - apply elem_of_cons in Hin as [->|Hin]; [done|].
    destruct (values !! j) as [[x|]|] eqn:Hvj; try (by apply IH).
    destruct (promises !! j) as [q|] eqn:Hq; [|by apply IH].
    destruct (q s) as [[a|e] s1] eqn:Hqs; [|eauto].
    apply IH; [done|]. by rewrite list_lookup_insert_ne.
Qed.

(** When every promise settles, so does the combined promise. *)
Lemma Promise_all_from_settles promises sched values s :
  length values = length promises ->
  (forall i, i < length promises ->
     i ∈ sched \/ exists a, values !! i = Some (Some a)) ->
  exists o s', Promise_all_from promises sched values s = (Some o, s').
Proof.
  revert values s.
  induction sched as [|i sched IH]; intros values s Hlen Hall; cbn.
  - assert (Hm : exists vs, mapM id values = Some vs).
    { assert (HF : Forall (fun v => is_Some v) values).
      { apply Forall_lookup. intros i v Hi.
        destruct (Hall i) as [Hin|[a Ha]].
        - rewrite <- Hlen. by eapply lookup_lt_Some.
        - by apply elem_of_nil in Hin.
        - rewrite Hi in Ha. injection Ha as ->. eauto. }
      clear -HF. induction HF as [|v values [a ->] _ [vs IHvs]].
      - by exists [].
      - exists (a :: vs). cbn. rewrite IHvs. reflexivity. }
    destruct Hm as [vs ->]. cbn. eauto.
  - assert (Hskip : (exists a, values !! i = Some (Some a)) \/
                    length promises <= i ->
      forall j, j < length promises ->
        j ∈ sched \/ exists a, values !! j = Some (Some a)).
    { intros Hi j Hj. destruct (Hall j Hj) as [Hin|Ha]; [|by right].
      apply elem_of_cons in Hin as [->|Hin]; [|by left].
      destruct Hi as [Ha|Hge]; [by right|lia]. }
    destruct (values !! i) as [[x|]|] eqn:Hv.
    + apply IH; [done|]. apply Hskip. left. eauto.
    + destruct (promises !! i) as [p|] eqn:Hp.
      * destruct (p s) as [[a|e] s1] eqn:Hps; [|eauto].
        apply IH; [by rewrite length_insert|].
        intros j Hj. destruct (decide (j = i)) as [->|Hne].
        -- right. exists a. apply list_lookup_insert_eq.
           by eapply lookup_lt_Some.
        -- rewrite list_lookup_insert_ne by done.
           destruct (Hall j Hj) as [Hin|Ha]; [|by right].
           apply elem_of_cons in Hin as [->|Hin]; [done|by left].
      * apply IH; [done|]. apply Hskip. right.
        by apply lookup_ge_None.
    + apply IH; [done|]. apply Hskip. right.
      rewrite <- Hlen. by apply lookup_ge_None.
Qed.

(** The values a fulfilled [Promise.all] returns: one per promise, the
    value at each index being the one its promise was fulfilled with. *)
Lemma Promise_all_resolved promises sched s vs s' :
  Promise_all promises sched s = (Some (Resolved vs), s') ->
  length vs = length promises
  /\ forall i a, vs !! i = Some a ->
       exists p s0 s1, promises !! i = Some p /\ p s0 = (Resolved a, s1).
Proof.
  unfold Promise_all. intros Hrun.
  eapply (Promise_all_from_rule
            (fun vals _ =>
               length vals = length promises
               /\ forall i a, vals !! i = Some (Some a) ->
                    exists p s0 s1,
                      promises !! i = Some p /\ p s0 = (Resolved a, s1)))
    in Hrun as (vals & [Hlen Hvals] & Hm).
  - apply mapM_Some in Hm. split.
    + rewrite <- Hlen. symmetry. by eapply Forall2_length.
    + intros i a Hi.
      destruct (Forall2_lookup_r _ _ _ _ _ Hm Hi) as (v & Hv & Hva).
      cbn in Hva. subst v. by apply Hvals.
  - split; [by rewrite length_replicate|].
    intros i a Hi. apply lookup_replicate in Hi as [[=] _].
  - intros i p vals s0 a s1 Hp Hv [Hlen Hvals] Hps. split.
    + by rewrite length_insert.
    + intros j b Hj. destruct (decide (j = i)) as [->|Hne].
      * rewrite list_lookup_insert_eq in Hj by (by eapply lookup_lt_Some).
        injection Hj as <-. eauto.
      * rewrite list_lookup_insert_ne in Hj by done. by apply Hvals.
Qed.

Lemma Promise_all_settles promises sched s :
  all_settle (length promises) sched ->
  exists o s', Promise_all promises sched s = (Some o, s').
Proof.
  intros Hall. apply Promise_all_from_settles.
  - by rewrite length_replicate.
  - intros i Hi. left. unfold all_settle in Hall.
    rewrite Forall_forall in Hall. apply Hall, elem_of_seq. lia.
Qed.

End PromiseAll.

Section Loader.
Context {types : ImportedTypes} {imports : Imports}.
Implicit Types (env : ProcessEnv) (sched : list nat).
Implicit Types (plugins : option (list PluginConfiguration)).
Implicit Types (specs : list PluginConfiguration) (root : option string).

(** The first [Promise.all] of [loadNxPlugins]: once it is fulfilled, every
    per-plugin load has yielded its pair and slot [i] of [result] holds the
    promise of the [i]-th specification. *)
Lemma callbacks_resolved env specs (dir : string) sched vs st :
  Promise_all
    (imap (fun idx plugin => load_callback (loadingMethod env plugin dir) idx)
          specs)
    sched
    {| result := replicate (length specs) None; cleanupFunctions := [] |}
    = (Some (Resolved vs), st) ->
  length (result st) = length specs
  /\ forall i spec, specs !! i = Some spec ->
       exists p c, loadingMethod env spec dir = Resolved (p, c)
                   /\ result st !! i = Some (Some p).
Proof.
  unfold Promise_all. rewrite length_imap. intros Hrun.
  eapply (Promise_all_from_rule
            (fun vals st =>
               length vals = length specs
               /\ length (result st) = length specs
               /\ forall i u, vals !! i = Some (Some u) ->
                    exists spec p c,
                      specs !! i = Some spec
                      /\ loadingMethod env spec dir = Resolved (p, c)
                      /\ result st !! i = Some (Some p)))
    in Hrun as (vals & (Hlen & Hres & Hvals) & Hm).
  - split; [done|]. intros i spec Hspec.
    apply mapM_Some in Hm.
    assert (Hi : i < length vals).
    { rewrite Hlen. by eapply lookup_lt_Some. }
    apply lookup_lt_is_Some in Hi as [v Hv].
    destruct (Forall2_lookup_l _ _ _ _ _ Hm Hv) as (u & _ & Hu).
    cbn in Hu. subst v.
    destruct (Hvals i u Hv) as (spec' & p & c & Hspec' & Hload & Hslot).
    rewrite Hspec in Hspec'. injection Hspec' as <-. eauto.
  - cbn. rewrite !length_replicate. split; [done|]. split; [done|].
    intros i u Hi. apply lookup_replicate in Hi as [[=] _].
  - intros i cb vals s0 u s1 Hcb Hv (Hlen & Hres & Hvals) Hrun1.
    rewrite list_lookup_imap in Hcb.
    destruct (specs !! i) as [spec|] eqn:Hspec; [|discriminate].
    injection Hcb as <-. unfold load_callback in Hrun1.
    destruct (loadingMethod env spec dir) as [[p c]|e] eqn:Hload;
      [|discriminate].
    injection Hrun1 as <- <-. cbn.
    split; [by rewrite length_insert|].
    split; [by rewrite length_insert|].
    intros j u' Hj. destruct (decide (j = i)) as [->|Hne].
    + exists spec, p, c. split; [done|]. split; [done|].
      apply list_lookup_insert_eq. rewrite Hres. by eapply lookup_lt_Some.
    + rewrite list_lookup_insert_ne in Hj by done.
      destruct (Hvals j u' Hj) as (spec' & p' & c' & ? & ? & ?).
      exists spec', p', c'. split; [done|]. split; [done|].
      by rewrite list_lookup_insert_ne.
Qed.

(** What a fulfilled [loadNxPlugins] returns: at each index the plugin the
    specification at that index loaded as. *)
Lemma loadNxPlugins_resolved env sched1 sched2 plugins root tl loaded cleanup tl' :
  loadNxPlugins env sched1 sched2 plugins root tl
    = (Some (Resolved (loaded, cleanup)), tl') ->
  length loaded = length (specifications plugins root)
  /\ forall i spec, specifications plugins root !! i = Some spec ->
       exists p, loads env root spec (Resolved p)
                 /\ loaded !! i = Some (Some p).
Proof.
  unfold loadNxPlugins, specifications, loads, load_of.
  set (dir := default InternalApi.workspaceRoot root).
  set (specs := normalizePlugins plugins dir).
  destruct (Promise_all _ sched1 _) as [[[vs|e]|] st] eqn:Hone; try discriminate.
  destruct (Promise_all _ sched2 _) as [[[vs2|e]|] u] eqn:Htwo; try discriminate.
  intros [= <- _ _].
  apply callbacks_resolved in Hone as [Hlen Hslots].
  apply Promise_all_resolved in Htwo as [Hlen2 Hvals].
  rewrite length_fmap in Hlen2. split; [congruence|].
  intros i spec Hspec.
  destruct (Hslots i spec Hspec) as (p & c & Hload & Hslot).
  assert (Hi : i < length vs2).
  { rewrite Hlen2, Hlen. by eapply lookup_lt_Some. }
  apply lookup_lt_is_Some in Hi as [a Ha].
  destruct (Hvals i a Ha) as (aw & s0 & s1 & Haw & Hrun).
  rewrite list_lookup_fmap, Hslot in Haw. injection Haw as <-.
  rewrite Hload. unfold await_slot in Hrun.
  destruct p as [q|e]; [|discriminate].
  injection Hrun as <- _. eauto.
Qed.

(** Whatever [loadNxPlugins] rejects with is what the load of one of the
    specifications rejected with. *)
Lemma loadNxPlugins_rejected env sched1 sched2 plugins root tl e tl' :
  loadNxPlugins env sched1 sched2 plugins root tl = (Some (Rejected e), tl') ->
  exists i spec, specifications plugins root !! i = Some spec
                 /\ loads env root spec (Rejected e).
Proof.
  unfold loadNxPlugins, specifications, loads, load_of.
  set (dir := default InternalApi.workspaceRoot root).
  set (specs := normalizePlugins plugins dir).
  destruct (Promise_all _ sched1 _) as [[[vs|e1]|] st] eqn:Hone;
    try discriminate.
  - destruct (Promise_all _ sched2 _) as [[[vs2|e2]|] u] eqn:Htwo;
      try discriminate.
    intros [= <- _].
    apply callbacks_resolved in Hone as [Hlen Hslots].
    apply Promise_all_from_rejected in Htwo
      as (i & aw & s0 & s1 & _ & Haw & Hrun).
    rewrite list_lookup_fmap in Haw.
    destruct (result st !! i) as [slot|] eqn:Hslot; [|discriminate].
    injection Haw as <-.
    assert (Hi : i < length specs).
    { rewrite <- Hlen. by eapply lookup_lt_Some. }
    apply lookup_lt_is_Some in Hi as [spec Hspec].
    destruct (Hslots i spec Hspec) as (p & c & Hload & Hslot').
    rewrite Hslot in Hslot'. injection Hslot' as ->.
    exists i, spec. split; [done|]. rewrite Hload.
    unfold await_slot in Hrun. destruct p as [q|e']; [discriminate|].
    by injection Hrun as <- _.
  - intros [= <- _].
    apply Promise_all_from_rejected in Hone
      as (i & cb & s0 & s1 & _ & Hcb & Hrun).
    rewrite list_lookup_imap in Hcb.
    destruct (specs !! i) as [spec|] eqn:Hspec; [|discriminate].
    injection Hcb as <-. exists i, spec. split; [done|].
    unfold load_callback in Hrun.
    destruct (loadingMethod env spec dir) as [[p c]|e'] eqn:Hload;
      [discriminate|].
    by injection Hrun as <- _.
Qed.

(** Fail-fast: once a per-plugin load that fails to yield its pair settles,
    [loadNxPlugins] is rejected. *)
Lemma loadNxPlugins_rejects env sched1 sched2 plugins root tl i spec e :
  specifications plugins root !! i = Some spec ->
  loadingMethod env spec (default InternalApi.workspaceRoot root) = Rejected e ->
  i ∈ sched1 ->
  exists e' tl',
    loadNxPlugins env sched1 sched2 plugins root tl = (Some (Rejected e'), tl').
Proof.
  unfold loadNxPlugins, specifications.
  set (dir := default InternalApi.workspaceRoot root).
  set (specs := normalizePlugins plugins dir).
  intros Hspec Hload Hin. unfold Promise_all at 1.
  edestruct (Promise_all_from_rejects
               (imap (fun idx plugin =>
                        load_callback (loadingMethod env plugin dir) idx) specs)
               sched1
               (replicate
                  (length
                     (imap (fun idx plugin =>
                              load_callback (loadingMethod env plugin dir) idx)
                           specs))
                  None)
               {| result := replicate (length specs) None;
                  cleanupFunctions := [] |}
               i) as (e' & st & Hrun).
  - exact Hin.
  - apply lookup_replicate_2. rewrite length_imap. by eapply lookup_lt_Some.
  - rewrite list_lookup_imap, Hspec. reflexivity.
  - intros s0. cbn. rewrite Hload. cbn. eauto.
  - rewrite Hrun. eauto.
Qed.

(** When every load and every promise of a loaded plugin settles,
    [loadNxPlugins] settles. *)
Lemma loadNxPlugins_settles env sched1 sched2 plugins root tl :
  all_settle (length (specifications plugins root)) sched1 ->
  all_settle (length (specifications plugins root)) sched2 ->
  exists o tl', loadNxPlugins env sched1 sched2 plugins root tl = (Some o, tl').
Proof.
  unfold loadNxPlugins, specifications.
  set (dir := default InternalApi.workspaceRoot root).
  set (specs := normalizePlugins plugins dir).
  intros Hs1 Hs2.
  destruct (Promise_all_settles
              (imap (fun idx plugin =>
                       load_callback (loadingMethod env plugin dir) idx) specs)
              sched1
              {| result := replicate (length specs) None;
                 cleanupFunctions := [] |})
    as (o1 & st & Hone); [by rewrite length_imap|].
  rewrite Hone. destruct o1 as [vs|e]; [|eauto].
  destruct (callbacks_resolved _ _ _ _ _ _ Hone) as [Hlen _].
  destruct (Promise_all_settles (await_slot <$> result st) sched2 tt)
    as (o2 & u & Htwo); [by rewrite length_fmap, Hlen|].
  rewrite Htwo. destruct o2 as [vs2|e]; eauto.
Qed.

(** C3 (plugin resolution order).  For every list of user plugins the
    normalized list is the built-in [package-json-next-to-project-json]
    first, then the user plugins in their given order, then the default
    built-ins: the js plugin, the angular-json adapter exactly when
    [shouldMergeAngularProjects] holds of the workspace, the
    package-json-workspaces plugin and the project-json plugin.  An absent
    list is treated as the empty one. *)
Theorem plugin_resolution_order (plugins : list PluginConfiguration)
    (dir : string) :
  let first :=
    PluginPath
      (join __dirname
         "../../plugins/project-json/build-nodes/package-json-next-to-project-json") in
  let tail :=
    PluginPath (join __dirname "../../plugins/js")
    :: (if shouldMergeAngularProjects dir false
        then [PluginPath (join __dirname "../../adapter/angular-json")]
        else [])
    ++ [PluginPath (join __dirname "../../plugins/package-json-workspaces");
        PluginPath
          (join __dirname "../../plugins/project-json/build-nodes/project-json")] in
  normalizePlugins (Some plugins) dir = first :: plugins ++ tail
  /\ getDefaultPlugins dir = tail
  /\ normalizePlugins (Some plugins) dir !! 0 = Some first
  /\ (forall i, i < length plugins ->
        normalizePlugins (Some plugins) dir !! S i = plugins !! i)
  /\ drop (S (length plugins)) (normalizePlugins (Some plugins) dir) = tail
  /\ normalizePlugins None dir = first :: tail.
Proof.
  intros first tail.
  assert (Hnorm : normalizePlugins (Some plugins) dir = first :: plugins ++ tail)
    by reflexivity.
  split; [exact Hnorm|]. split; [reflexivity|]. rewrite Hnorm.
  split; [reflexivity|]. split; [|split; [|reflexivity]].
  - intros i Hi. cbn. by apply lookup_app_l.
  - cbn. by rewrite drop_app_length.
Qed.

(** C5 (fail-fast loading).  If the load of any one of the specifications
    rejects, [loadNxPlugins] never returns a list of loaded plugins,
    whatever the completion order; when every load settles, the call
    rejects, with what the load of one of the specifications rejected with;
    and when it is the loading method itself that fails for the
    specification, the call rejects as soon as that load settles, without
    waiting for the others. *)
Theorem fail_fast_loading env sched1 sched2 plugins root tl i spec e :
  specifications plugins root !! i = Some spec ->
  loads env root spec (Rejected e) ->
  (forall loaded cleanup,
     (loadNxPlugins env sched1 sched2 plugins root tl).1
       <> Some (Resolved (loaded, cleanup)))
  /\ (all_settle (length (specifications plugins root)) sched1 ->
      all_settle (length (specifications plugins root)) sched2 ->
      exists e' j spec',
        (loadNxPlugins env sched1 sched2 plugins root tl).1
          = Some (Rejected e')
        /\ specifications plugins root !! j = Some spec'
        /\ loads env root spec' (Rejected e'))
  /\ (loadingMethod env spec (default InternalApi.workspaceRoot root)
        = Rejected e ->
      i ∈ sched1 ->
      exists e',
        (loadNxPlugins env sched1 sched2 plugins root tl).1
          = Some (Rejected e')).
Proof.
  intros Hspec Hload.
  assert (Hnot : forall loaded cleanup,
    (loadNxPlugins env sched1 sched2 plugins root tl).1
      <> Some (Resolved (loaded, cleanup))).
  { intros loaded cleanup Hrun.
    destruct (loadNxPlugins env sched1 sched2 plugins root tl)
      as [o tl'] eqn:Hrun'. cbn in Hrun. subst o.
    apply loadNxPlugins_resolved in Hrun' as [_ Hall].
    destruct (Hall i spec Hspec) as (p & Hp & _).
    unfold loads in *. congruence. }
  split; [exact Hnot|]. split.
  - intros Hs1 Hs2.
    destruct (loadNxPlugins_settles env sched1 sched2 plugins root tl Hs1 Hs2)
      as (o & tl' & Hrun).
    destruct o as [[loaded cleanup]|e'].
    + exfalso. apply (Hnot loaded cleanup). by rewrite Hrun.
    + destruct (loadNxPlugins_rejected _ _ _ _ _ _ _ _ Hrun)
        as (j & spec' & Hj & Hrej).
      exists e', j, spec'. by rewrite Hrun.
  - intros Hmethod Hin.
    destruct (loadNxPlugins_rejects env sched1 sched2 plugins root tl
                i spec e Hspec Hmethod Hin) as (e' & tl' & Hrun).
    exists e'. by rewrite Hrun.
Qed.

(** C9 (the load result keeps the resolution order).  When every load
    settles and succeeds, [loadNxPlugins] returns a list that holds, at each
    index, the plugin loaded for the specification at that index of the
    normalized list; and every run that returns, under whatever completion
    orders, returns that same list. *)
Theorem load_order_preserved env sched1 sched2 plugins root tl :
  all_settle (length (specifications plugins root)) sched1 ->
  all_settle (length (specifications plugins root)) sched2 ->
  Forall (fun spec => exists p, loads env root spec (Resolved p))
         (specifications plugins root) ->
  exists loaded cleanup tl',
    loadNxPlugins env sched1 sched2 plugins root tl
      = (Some (Resolved (loaded, cleanup)), tl')
    /\ length loaded = length (specifications plugins root)
    /\ (forall i spec, specifications plugins root !! i = Some spec ->
          exists p, loads env root spec (Resolved p)
                    /\ loaded !! i = Some (Some p))
    /\ (forall sched1' sched2' tl0 loaded' cleanup' tl0',
          loadNxPlugins env sched1' sched2' plugins root tl0
            = (Some (Resolved (loaded', cleanup')), tl0') ->
          loaded' = loaded).
Proof.
  intros Hs1 Hs2 Hok.
  destruct (loadNxPlugins_settles env sched1 sched2 plugins root tl Hs1 Hs2)
    as (o & tl' & Hrun).
  destruct o as [[loaded cleanup]|e].
  - exists loaded, cleanup, tl'. split; [done|].
    destruct (loadNxPlugins_resolved _ _ _ _ _ _ _ _ _ Hrun) as [Hlen Hpos].
    split; [done|]. split; [done|].
    intros sched1' sched2' tl0 loaded' cleanup' tl0' Hrun'.
    destruct (loadNxPlugins_resolved _ _ _ _ _ _ _ _ _ Hrun') as [Hlen' Hpos'].
    apply list_eq. intros i.
    destruct (specifications plugins root !! i) as [spec|] eqn:Hspec.
    + destruct (Hpos i spec Hspec) as (p & Hp & ->).
      destruct (Hpos' i spec Hspec) as (p' & Hp' & ->).
      unfold loads in *. congruence.
    + apply lookup_ge_None in Hspec.
      rewrite !(proj2 (lookup_ge_None _ _)) by lia. reflexivity.
  - exfalso.
    destruct (loadNxPlugins_rejected _ _ _ _ _ _ _ _ Hrun)
      as (j & spec & Hj & Hrej).
    rewrite Forall_forall in Hok.
    destruct (Hok spec) as [p Hp]; [by eapply list_elem_of_lookup_2|].
    unfold loads in *. congruence.
Qed.

End Loader.

Section LoaderExamples.
Import Samples.
#[local] Existing Instance sample_types.
#[local] Existing Instance sample_imports.

(** While a load has not settled and none has failed, the call is pending:
    here the load at index 3 never settles. *)
Example loadNxPlugins_pending :
  (loadNxPlugins isolated_env [0; 1; 2; 4; 5] [0; 1; 2; 3; 4; 5]
     (Some [PluginPath "@nx/gradle"; PluginPath "@nx/nuxt/plugin"]) None []).1
  = None.
Proof. vm_compute. reflexivity. Qed.

(** The cleanup callbacks run in the order in which the loads settled. *)
Example loadNxPlugins_cleanup_order :
  exists loaded cleanup,
    (loadNxPlugins isolated_env [1; 0; 2; 3; 4] [0; 1; 2; 3; 4]
       (Some [PluginPath "@nx/gradle"]) None []).1
    = Some (Resolved (loaded, cleanup))
    /\ cleanup [] =
       ["/nx/src/project-graph/plugins/../../plugins/project-json/build-nodes/project-json";
        "/nx/src/project-graph/plugins/../../plugins/package-json-workspaces";
        "/nx/src/project-graph/plugins/../../plugins/js";
        "/nx/src/project-graph/plugins/../../plugins/project-json/build-nodes/package-json-next-to-project-json";
        "@nx/gradle"].
Proof. eexists _, _. split; vm_compute; reflexivity. Qed.

Lemma fail_fast_loading_witness :
  exists e,
    (loadNxPlugins isolated_env [0; 1; 2; 3; 4; 5] [5; 4; 3; 2; 1; 0]
       (Some [PluginPath "@nx/gradle"; PluginPath "missing"]) None []).1
    = Some (Rejected e).
Proof.
  destruct (proj1 (proj2 (fail_fast_loading (imports := sample_imports)
                     isolated_env [0; 1; 2; 3; 4; 5] [5; 4; 3; 2; 1; 0]
                     (Some [PluginPath "@nx/gradle"; PluginPath "missing"])
                     None [] 2 (PluginPath "missing")
                     (OtherError "Cannot find module") eq_refl eq_refl)))
    as (e & _ & _ & Hrun & _).
  - unfold all_settle. apply (bool_decide_unpack _). vm_compute. exact I.
  - unfold all_settle. apply (bool_decide_unpack _). vm_compute. exact I.
  - exists e. exact Hrun.
Defined.

Lemma load_order_preserved_witness :
  exists loaded cleanup tl',
    loadNxPlugins isolated_env [5; 3; 1; 0; 2; 4] [0; 1; 2; 3; 4; 5]
      (Some [PluginPath "@nx/gradle"; PluginPath "@nx/nuxt/plugin"]) None []
      = (Some (Resolved (loaded, cleanup)), tl')
    /\ (fun p => name <$> p) <$> loaded
       = Some <$>
         ["/nx/src/project-graph/plugins/../../plugins/project-json/build-nodes/package-json-next-to-project-json";
          "@nx/gradle"; "@nx/nuxt/plugin";
          "/nx/src/project-graph/plugins/../../plugins/js";
          "/nx/src/project-graph/plugins/../../plugins/package-json-workspaces";
          "/nx/src/project-graph/plugins/../../plugins/project-json/build-nodes/project-json"].
Proof.
  destruct (load_order_preserved (imports := sample_imports)
              isolated_env [5; 3; 1; 0; 2; 4] [0; 1; 2; 3; 4; 5]
              (Some [PluginPath "@nx/gradle"; PluginPath "@nx/nuxt/plugin"])
              None [])
    as (loaded & cleanup & tl' & Hrun & _ & _ & Hsame).
  - unfold all_settle. apply (bool_decide_unpack _). vm_compute. exact I.
  - unfold all_settle. apply (bool_decide_unpack _). vm_compute. exact I.
  - repeat constructor; eexists; reflexivity.
  - exists loaded, cleanup, tl'. split; [exact Hrun|].
    erewrite <- (Hsame [0; 1; 2; 3; 4; 5] [0; 1; 2; 3; 4; 5] []);
      [|vm_compute; reflexivity].
    reflexivity.
Defined.

End LoaderExamples.
End LoaderFacts.

(** ** The Gradle plugin *)

Module GradleFacts.
Import Gradle.

Section Strings.

Lemma append_assoc (a b c : string) : (a +:+ b) +:+ c = a +:+ (b +:+ c).
Proof.
  induction a as [|x a IH]; [done|].
  change (String x ((a +:+ b) +:+ c) = String x (a +:+ (b +:+ c))).
  by rewrite IH.
Qed.

Lemma append_cons (x : ascii) (a b : string) :
  String x a +:+ b = String x (a +:+ b).
Proof. reflexivity. Qed.

Lemma length_append (a b : string) :
  String.length (a +:+ b) = String.length a + String.length b.
Proof.
  induction a as [|x a IH]; [done|].
  rewrite append_cons. cbn. by rewrite IH.
Qed.

Lemma append_cancel_r (s a b : string) : a +:+ s = b +:+ s -> a = b.
Proof.
  revert b. induction a as [|x a IH]; intros [|y b] Heq.
  - done.
  - apply (f_equal String.length) in Heq.
    rewrite !length_append in Heq. cbn in Heq. lia.
  - apply (f_equal String.length) in Heq.
    rewrite !length_append in Heq. cbn in Heq. lia.
  - rewrite !append_cons in Heq. injection Heq as -> Heq.
    f_equal. by apply IH.
Qed.

End Strings.

Section Objects.
Context {V : Type}.

Lemma elem_of_set (k k' : string) (v v' : V) (o : list (string * V)) :
  (k', v') ∈ JsObject.set k v o -> (k', v') = (k, v) \/ (k', v') ∈ o.
Proof.
  induction o as [|[k0 v0] o IH]; cbn.
  - intros Hin%list_elem_of_singleton. by left.
  - destruct (String.eqb k k0).
    + intros [->|Hin]%elem_of_cons; [by left|].
      right. by apply list_elem_of_further.
    + intros [->|Hin]%elem_of_cons; [right; apply list_elem_of_here|].
      destruct (IH Hin) as [->|Hin']; [by left|].
      right. by apply list_elem_of_further.
Qed.

End Objects.

Section Synthesis.
Implicit Types (report : GradleReport) (options : GradlePluginOptions).
Implicit Types (files : list string) (context : CreateNodesContext).

(** A build file among the matched files has an entry in the result. *)
Lemma build_file_entry report files options context buildFile :
  buildFile ∈ files -> is_build_file buildFile = true ->
  (buildFile,
   create_nodes_for_build_file report options
     (List.filter (fun f => negb (is_build_file f)) files) buildFile)
  ∈ createNodesFunction report files options context.
Proof.
  intros Hin Hbuild. unfold createNodesFunction.
  apply (list_elem_of_fmap_2
           (fun buildFile =>
              (buildFile,
               create_nodes_for_build_file report options
                 (List.filter (fun f => negb (is_build_file f)) files)
                 buildFile))).
  apply list_elem_of_In, filter_In. split; [by apply list_elem_of_In|done].
Qed.

(** C7 (no CI target name configured).  For a build file whose project has
    the single task [test], of whatever type, and options without
    [ciTargetName]: the project has the base target [test] and no other,
    cached, with command [./gradlew <project>:test] and
    [dependsOn = ["classes"]], and the target group of the task type is
    exactly [["test"]]. *)
Theorem gradle_without_ci_target report files options context
    buildFile proj taskType :
  ciTargetName options = None ->
  buildFile ∈ files -> is_build_file buildFile = true ->
  gradleFileToGradleProjectMap report !! buildFile = Some proj ->
  gradleProjectToTasksTypeMap report !! proj = Some [("test", taskType)] ->
  exists result project,
    (buildFile, result) ∈ createNodesFunction report files options context
    /\ projects result = [(Path.dirname buildFile, project)]
    /\ targets project
       = [("test",
           {| command := Some ("./gradlew " +:+ proj +:+ ":test");
              executor := None;
              cache := true;
              dependsOn := [TargetName "classes"];
              inputs := ["default"; "^production"];
              metadata := {| technologies := ["gradle"];
                             description := None;
                             nonAtomizedTarget := None |} |})]
    /\ targetGroups (project_metadata project) = [(taskType, ["test"])].
Proof.
  intros Hci Hin Hbuild Hproj Htasks.
  eexists _, _. split; [by apply build_file_entry|].
  unfold create_nodes_for_build_file. rewrite Hproj, Htasks. cbn.
  unfold atomization. rewrite Hci. cbn. done.
Qed.

(** C1 (atomization).  For a build file whose project has the task [test]
    of type [Test], with [ciTargetName = "test-ci"] and the two test source
    files [test.java] and [test1.java] qualifying for the project: the
    project has exactly the targets [test-ci--test], [test-ci--test1],
    [test-ci] and [test]; the base target is not cached; each atomized
    target is cached and runs [./gradlew <project>:test --tests <class>];
    the umbrella target runs [nx:noop], is cached, depends on the atomized
    targets through self-references in discovery order and records
    [nonAtomizedTarget = "test"]; the target group of [Test] lists the four
    names, atomized first, then the umbrella, then the base target. *)
Theorem gradle_atomization report files options context buildFile proj f1 f2 :
  ciTargetName options = Some "test-ci" ->
  buildFile ∈ files -> is_build_file buildFile = true ->
  gradleFileToGradleProjectMap report !! buildFile = Some proj ->
  gradleProjectToTasksTypeMap report !! proj = Some [("test", "Test")] ->
  qualifying_test_files (Path.dirname buildFile)
    (List.filter (fun f => negb (is_build_file f)) files) = [f1; f2] ->
  Path.basename f1 = "test.java" -> Path.basename f2 = "test1.java" ->
  exists result project,
    (buildFile, result) ∈ createNodesFunction report files options context
    /\ projects result = [(Path.dirname buildFile, project)]
    /\ JsObject.keys (targets project)
       = ["test-ci--test"; "test-ci--test1"; "test-ci"; "test"]
    /\ JsObject.get "test" (targets project)
       = Some {| command := Some ("./gradlew " +:+ proj +:+ ":test");
                 executor := None;
                 cache := false;
                 dependsOn := [TargetName "classes"];
                 inputs := ["default"; "^production"];
                 metadata := {| technologies := ["gradle"];
                                description := None;
                                nonAtomizedTarget := None |} |}
    /\ JsObject.get "test-ci--test" (targets project)
       = Some {| command :=
                   Some ("./gradlew " +:+ proj +:+ ":test --tests test");
                 executor := None;
                 cache := true;
                 dependsOn := [TargetName "classes"];
                 inputs := ["default"; "^production"];
                 metadata :=
                   {| technologies := ["gradle"];
                      description :=
                        Some ("Runs Gradle test " +:+ f1 +:+ " in CI");
                      nonAtomizedTarget := None |} |}
    /\ JsObject.get "test-ci--test1" (targets project)
       = Some {| command :=
                   Some ("./gradlew " +:+ proj +:+ ":test --tests test1");
                 executor := None;
                 cache := true;
                 dependsOn := [TargetName "classes"];
                 inputs := ["default"; "^production"];
                 metadata :=
                   {| technologies := ["gradle"];
                      description :=
                        Some ("Runs Gradle test " +:+ f2 +:+ " in CI");
                      nonAtomizedTarget := None |} |}
    /\ JsObject.get "test-ci" (targets project)
       = Some {| command := None;
                 executor := Some "nx:noop";
                 cache := true;
                 dependsOn :=
                   [TargetReference "self" "test-ci--test" "forward";
                    TargetReference "self" "test-ci--test1" "forward"];
                 inputs := ["default"; "^production"];
                 metadata :=
                   {| technologies := ["gradle"];
                      description := Some "Runs Gradle Tests in CI";
                      nonAtomizedTarget := Some "test" |} |}
    /\ targetGroups (project_metadata project)
       = [("Test", ["test-ci--test"; "test-ci--test1"; "test-ci"; "test"])].
Proof.
  intros Hci Hin Hbuild Hproj Htasks Hqual Hf1 Hf2.
  eexists _, _. split; [by apply build_file_entry|].
  unfold create_nodes_for_build_file. rewrite Hproj, Htasks, Hqual. cbn.
  unfold atomization. rewrite Hci. cbn.
  unfold add_atomized, atomized_target_name, atomized_target,
    Path.name_without_extension. rewrite Hf1, Hf2. cbn.
  unfold gradle_command. rewrite !append_assoc.
  repeat split.
Qed.

(** The atomized target of a file determines the file. *)
Lemma atomized_target_file gp task file gp' task' file' :
  atomized_target gp task file = atomized_target gp' task' file' ->
  file = file'.
Proof.
  intros Heq.
  apply (f_equal (fun t => description (metadata t))) in Heq.
  unfold atomized_target in Heq. cbn [description metadata] in Heq.
  injection Heq as Heq.
  exact (append_cancel_r " in CI" file file' Heq).
Qed.

(** Every atomized target among [ts] is the target of a matched file within
    the subtree of [root]. *)
#[local] Abbreviation sourced root files ts :=
  (forall n t gp task file,
     (n, t) ∈ ts -> t = atomized_target gp task file ->
     file ∈ files /\ Path.within_subtree root file = true).

Lemma fold_add_atomized_sourced (root : string) files gp task taskType ci
    testFiles (acc : Targets) :
  sourced root files acc.1 ->
  Forall (fun f => f ∈ files /\ Path.within_subtree root f = true) testFiles ->
  sourced root files
    (fold_left (add_atomized gp task taskType ci) testFiles acc).1.
Proof.
  intros Hacc Hfiles. revert acc Hacc.
  induction Hfiles as [|f testFiles Hf _ IH]; intros acc Hacc; [done|].
  cbn [fold_left]. apply IH.
  intros n t gp' task' file Hin Heq. unfold add_atomized in Hin. cbn in Hin.
  apply elem_of_set in Hin as [[= -> ->]|Hin]; [|by eapply Hacc].
  by apply atomized_target_file in Heq as <-.
Qed.

Lemma add_task_targets_sourced (root : string) files options gp qualifying
    (acc : Targets) taskAndType :
  sourced root files acc.1 ->
  Forall (fun f => f ∈ files /\ Path.within_subtree root f = true) qualifying ->
  sourced root files (add_task_targets options gp qualifying acc taskAndType).1.
Proof.
  intros Hacc Hfiles. destruct taskAndType as [task taskType].
  unfold add_task_targets.
  destruct (atomization options taskType qualifying) as [[ci testFiles]|]
    eqn:Hat.
  - assert (testFiles = qualifying) as ->.
    { unfold atomization in Hat.
      destruct (ciTargetName options), qualifying; try discriminate.
      destruct (String.eqb taskType TEST_TASK_TYPE); [|discriminate].
      by injection Hat as _ <-. }
    cbn. intros n t gp' task' file Hin Heq.
    apply elem_of_set in Hin as [[= -> ->]|Hin]; [discriminate|].
    apply elem_of_set in Hin as [[= -> ->]|Hin]; [discriminate|].
    by eapply (fold_add_atomized_sourced root files gp task taskType ci
                 qualifying acc).
  - cbn. intros n t gp' task' file Hin Heq.
    apply elem_of_set in Hin as [[= -> ->]|Hin]; [discriminate|].
    by eapply Hacc.
Qed.

Lemma fold_add_task_targets_sourced (root : string) files options gp
    qualifying tasks (acc : Targets) :
  sourced root files acc.1 ->
  Forall (fun f => f ∈ files /\ Path.within_subtree root f = true) qualifying ->
  sourced root files
    (fold_left (add_task_targets options gp qualifying) tasks acc).1.
Proof.
  intros Hacc Hfiles. revert acc Hacc.
  induction tasks as [|task tasks IH]; intros acc Hacc; [done|].
  cbn [fold_left]. apply IH. by apply add_task_targets_sourced.
Qed.

(** C4 (only files of the project's own subtree are atomized).  Whenever a
    target of a project in the result is the atomized target of a file, the
    file is one of the matched files and its path starts with the project
    root (the directory of the build file) followed by the separator.  In
    the atomization test of [nodes.spec.ts], where the project root is
    [nested/nested/proj], the file [proj/src/test/java/test/rootTest.java]
    therefore has no atomized target. *)
Theorem atomization_respects_subtree :
  (forall report files options context buildFile result root project
          targetName target gp task file,
     (buildFile, result) ∈ createNodesFunction report files options context ->
     (root, project) ∈ projects result ->
     (targetName, target) ∈ targets project ->
     target = atomized_target gp task file ->
     root = Path.dirname buildFile
     /\ file ∈ files
     /\ String.prefix (root +:+ "/") file = true)
  /\ (forall buildFile result root project targetName target gp task,
        (buildFile, result)
          ∈ createNodesFunction (GradleSpec.gradleReport_nested "Test")
              GradleSpec.atomized_files GradleSpec.options_ci
              (GradleSpec.context "/tmp/test") ->
        (root, project) ∈ projects result ->
        (targetName, target) ∈ targets project ->
        root = "nested/nested/proj"
        /\ target
           <> atomized_target gp task "proj/src/test/java/test/rootTest.java").
Proof.
  assert (Hgen : forall report files options context buildFile result root
                        project targetName target gp task file,
    (buildFile, result) ∈ createNodesFunction report files options context ->
    (root, project) ∈ projects result ->
    (targetName, target) ∈ targets project ->
    target = atomized_target gp task file ->
    root = Path.dirname buildFile
    /\ file ∈ files
    /\ String.prefix (root +:+ "/") file = true).
  { intros report files options context buildFile result root project
      targetName target gp task file Hres Hproj Htarget Heq.
    unfold createNodesFunction in Hres.
    apply list_elem_of_fmap in Hres as (bf & [= -> ->] & _).
    unfold create_nodes_for_build_file in Hproj.
    destruct (gradleFileToGradleProjectMap report !! bf) as [gradleProject|];
      [|by apply elem_of_nil in Hproj].
    destruct (fold_left _ _ _) as [ts groups] eqn:Hfold.
    cbn in Hproj. apply list_elem_of_singleton in Hproj.
    injection Hproj as -> ->. cbn in Htarget.
    split; [done|].
    pose proof (fold_add_task_targets_sourced (Path.dirname bf) files options
                  gradleProject
                  (qualifying_test_files (Path.dirname bf)
                     (List.filter (fun f => negb (is_build_file f)) files))
                  (default [] (gradleProjectToTasksTypeMap report
                                 !! gradleProject))
                  ([], [])) as Hsourced.
    rewrite Hfold in Hsourced. cbn in Hsourced.
    eapply Hsourced; [| |exact Htarget|exact Heq].
    - intros n t gp' task' file' Hin. by apply elem_of_nil in Hin.
    - apply Forall_forall. intros f Hf.
      unfold qualifying_test_files in Hf.
      apply list_elem_of_In, filter_In in Hf as [Hf Hwithin].
      apply filter_In in Hf as [Hf _].
      split; [by apply list_elem_of_In|done]. }
  split; [exact Hgen|].
  intros buildFile result root project targetName target gp task
    Hres Hproj Htarget.
  assert (Hroot : root = "nested/nested/proj").
  { vm_compute in Hres. apply list_elem_of_singleton in Hres.
    injection Hres as -> ->. cbn in Hproj.
    apply list_elem_of_singleton in Hproj. by injection Hproj as -> _. }
  split; [exact Hroot|]. intros Heq.
  destruct (Hgen _ _ _ _ _ _ _ _ _ _ _ _ _ Hres Hproj Htarget Heq)
    as (_ & _ & Hprefix).
  rewrite Hroot in Hprefix. vm_compute in Hprefix. discriminate.
Qed.

End Synthesis.

Section SynthesisExamples.
Import GradleSpec.

(** The first test of [nodes.spec.ts], with its whole snapshot. *)
Lemma gradle_without_ci_target_witness :
  createNodesFunction gradleReport_proj ["proj/build.gradle"]
    options_build_only (context "/tmp/test")
  = [("proj/build.gradle",
      {| projects :=
           [("proj",
             {| name := "proj";
                targets :=
                  [("test",
                    {| command := Some "./gradlew proj:test";
                       executor := None;
                       cache := true;
                       dependsOn := [TargetName "classes"];
                       inputs := ["default"; "^production"];
                       metadata := {| technologies := ["gradle"];
                                      description := None;
                                      nonAtomizedTarget := None |} |})];
                project_metadata :=
                  {| targetGroups := [("Verification", ["test"])];
                     project_technologies := ["gradle"] |} |})] |})]
  /\ exists result project,
       (("proj/build.gradle" : string), result)
         ∈ createNodesFunction gradleReport_proj ["proj/build.gradle"]
             options_build_only (context "/tmp/test")
       /\ projects result = [("proj", project)]
       /\ JsObject.keys (targets project) = ["test"]
       /\ targetGroups (project_metadata project) = [("Verification", ["test"])].
Proof.
  split; [vm_compute; reflexivity|].
  destruct (gradle_without_ci_target gradleReport_proj ["proj/build.gradle"]
              options_build_only (context "/tmp/test")
              "proj/build.gradle" "proj" "Verification")
    as (result & project & Hin & Hprojects & Htargets & Hgroups).
  - reflexivity.
  - apply list_elem_of_here.
  - vm_compute. reflexivity.
  - vm_compute. reflexivity.
  - vm_compute. reflexivity.
  - exists result, project. split; [exact Hin|]. split; [exact Hprojects|].
    split; [by rewrite Htargets|exact Hgroups].
Defined.

(** The second test of [nodes.spec.ts], with its whole snapshot. *)
Example nested_project_snapshot :
  createNodesFunction (gradleReport_nested "Verification")
    ["nested/nested/proj/build.gradle"] options_build_only
    (context "/tmp/test")
  = [("nested/nested/proj/build.gradle",
      {| projects :=
           [("nested/nested/proj",
             {| name := "proj";
                targets :=
                  [("test",
                    {| command := Some "./gradlew proj:test";
                       executor := None;
                       cache := true;
                       dependsOn := [TargetName "classes"];
                       inputs := ["default"; "^production"];
                       metadata := {| technologies := ["gradle"];
                                      description := None;
                                      nonAtomizedTarget := None |} |})];
                project_metadata :=
                  {| targetGroups := [("Verification", ["test"])];
                     project_technologies := ["gradle"] |} |})] |})].
Proof. vm_compute. reflexivity. Qed.

(** The third test of [nodes.spec.ts], with its whole snapshot (which
    prints the targets sorted by name; they are listed here in the order of
    their insertion). *)
Example atomization_snapshot :
  createNodesFunction (gradleReport_nested "Test") atomized_files
    options_ci (context "/tmp/test")
  = [("nested/nested/proj/build.gradle",
      {| projects :=
           [("nested/nested/proj",
             {| name := "proj";
                targets :=
                  [("test-ci--test",
                    {| command := Some "./gradlew proj:test --tests test";
                       executor := None;
                       cache := true;
                       dependsOn := [TargetName "classes"];
                       inputs := ["default"; "^production"];
                       metadata :=
                         {| technologies := ["gradle"];
                            description :=
                              Some "Runs Gradle test nested/nested/proj/src/test/java/test/test.java in CI";
                            nonAtomizedTarget := None |} |});
                   ("test-ci--test1",
                    {| command := Some "./gradlew proj:test --tests test1";
                       executor := None;
                       cache := true;
                       dependsOn := [TargetName "classes"];
                       inputs := ["default"; "^production"];
                       metadata :=
                         {| technologies := ["gradle"];
                            description :=
                              Some "Runs Gradle test nested/nested/proj/src/test/java/test/test1.java in CI";
                            nonAtomizedTarget := None |} |});
                   ("test-ci",
                    {| command := None;
                       executor := Some "nx:noop";
                       cache := true;
                       dependsOn :=
                         [TargetReference "self" "test-ci--test" "forward";
                          TargetReference "self" "test-ci--test1" "forward"];
                       inputs := ["default"; "^production"];
                       metadata :=
                         {| technologies := ["gradle"];
                            description := Some "Runs Gradle Tests in CI";
                            nonAtomizedTarget := Some "test" |} |});
                   ("test",
                    {| command := Some "./gradlew proj:test";
                       executor := None;
                       cache := false;
                       dependsOn := [TargetName "classes"];
                       inputs := ["default"; "^production"];
                       metadata := {| technologies := ["gradle"];
                                      description := None;
                                      nonAtomizedTarget := None |} |})];
                project_metadata :=
                  {| targetGroups :=
                       [("Test",
                         ["test-ci--test"; "test-ci--test1"; "test-ci"; "test"])];
                     project_technologies := ["gradle"] |} |})] |})].
Proof. vm_compute. reflexivity. Qed.

(** The atomization test of [nodes.spec.ts]: the plugin returns one entry
    for the four matched files, for the project at [nested/nested/proj]. *)
Example atomization_test_entries :
  (fun r => (r.1, (projects r.2).*1))
    <$> createNodesFunction (gradleReport_nested "Test") atomized_files
          options_ci (context "/tmp/test")
  = [("nested/nested/proj/build.gradle", ["nested/nested/proj"])].
Proof. vm_compute. reflexivity. Qed.

Lemma gradle_atomization_witness :
  exists result project,
    (("nested/nested/proj/build.gradle" : string), result)
      ∈ createNodesFunction (gradleReport_nested "Test") atomized_files
          options_ci (context "/tmp/test")
    /\ projects result = [("nested/nested/proj", project)]
    /\ JsObject.keys (targets project)
       = ["test-ci--test"; "test-ci--test1"; "test-ci"; "test"]
    /\ cache <$> JsObject.get "test" (targets project) = Some false
    /\ command <$> JsObject.get "test-ci--test" (targets project)
       = Some (Some "./gradlew proj:test --tests test")
    /\ command <$> JsObject.get "test-ci--test1" (targets project)
       = Some (Some "./gradlew proj:test --tests test1")
    /\ executor <$> JsObject.get "test-ci" (targets project)
       = Some (Some "nx:noop")
    /\ targetGroups (project_metadata project)
       = [("Test", ["test-ci--test"; "test-ci--test1"; "test-ci"; "test"])].
Proof.
  destruct (gradle_atomization (gradleReport_nested "Test") atomized_files
              options_ci (context "/tmp/test")
              "nested/nested/proj/build.gradle" "proj"
              "nested/nested/proj/src/test/java/test/test.java"
              "nested/nested/proj/src/test/java/test/test1.java")
    as (result & project & Hin & Hprojects & Hkeys & Hbase & Ht & Ht1
        & Hci & Hgroups).
  - reflexivity.
  - apply list_elem_of_here.
  - vm_compute. reflexivity.
  - vm_compute. reflexivity.
  - vm_compute. reflexivity.
  - vm_compute. reflexivity.
  - vm_compute. reflexivity.
  - vm_compute. reflexivity.
  - exists result, project.
    split; [exact Hin|]. split; [exact Hprojects|]. split; [exact Hkeys|].
    split; [by rewrite Hbase|]. split; [by rewrite Ht|].
    split; [by rewrite Ht1|]. split; [by rewrite Hci|exact Hgroups].
Defined.

Lemma atomization_respects_subtree_witness :
  ("nested/nested/proj/src/test/java/test/test.java" : string)
    ∈ GradleSpec.atomized_files
  /\ String.prefix ("nested/nested/proj" +:+ "/")
       "nested/nested/proj/src/test/java/test/test.java" = true.
Proof.
  refine (proj2 (proj1 atomization_respects_subtree
                   (gradleReport_nested "Test") atomized_files options_ci
                   (context "/tmp/test") "nested/nested/proj/build.gradle"
                   (create_nodes_for_build_file (gradleReport_nested "Test")
                      options_ci
                      (List.filter (fun f => negb (is_build_file f))
                                   atomized_files)
                      "nested/nested/proj/build.gradle")
                   "nested/nested/proj"
                   _ "test-ci--test"
                   _ "proj" "test"
                   "nested/nested/proj/src/test/java/test/test.java"
                   _ _ _ eq_refl)).
  - vm_compute. apply list_elem_of_here.
  - vm_compute. apply list_elem_of_here.
  - vm_compute. apply list_elem_of_here.
Defined.

End SynthesisExamples.
End GradleFacts.

(** ** Prompt selection *)

Module PromptFacts.
Import Prompts Statements MoreStatements.

Section DocsMode.
Variable env : ProcessEnv.
Hypothesis docs_mode : NX_GENERATE_DOCS_PROCESS env = Some "true".

(** No index other than 0 has been selected. *)
#[local] Abbreviation only_first this :=
  (forall key n, selectedMessages this !! key = Some n -> n = 0).

Lemma getPrompt_docs_mode key this :
  only_first this ->
  getPrompt env key this
  = (first_option key,
     {| selectedMessages := <[key := 0]> (selectedMessages this);
        random := random this |}).
Proof using docs_mode.
  intros Hinv. unfold getPrompt, first_option.
  destruct this as [sel rng]. cbn [selectedMessages random] in *.
  generalize (messageOptions !! key). intros opts.
  destruct (sel !! key) as [n|] eqn:Hsel.
  - pose proof (Hinv key n Hsel) as ->.
    rewrite insert_id by done. cbn [selectedMessages]. rewrite Hsel.
    by destruct opts.
  - rewrite docs_mode, bool_decide_eq_true_2 by done.
    cbn [selectedMessages]. rewrite lookup_insert_eq. by destruct opts.
Qed.

Lemma getPrompts_docs_mode keys this :
  only_first this ->
  (getPrompts env keys this).1 = first_option <$> keys
  /\ only_first (getPrompts env keys this).2
  /\ random (getPrompts env keys this).2 = random this
  /\ (forall key, key ∈ keys ->
        selectedMessages (getPrompts env keys this).2 !! key = Some 0)
  /\ (forall key, selectedMessages this !! key = Some 0 ->
        selectedMessages (getPrompts env keys this).2 !! key = Some 0).
Proof using docs_mode.
  revert this. induction keys as [|key keys IH]; intros this Hinv.
  - cbn. split; [done|]. split; [done|]. split; [done|].
    split; [|done]. intros key Hin. by apply elem_of_nil in Hin.
  - cbn [getPrompts]. rewrite getPrompt_docs_mode by done.
    set (this' := {| selectedMessages := <[key := 0]> (selectedMessages this);
                     random := random this |}).
    assert (Hinv' : only_first this').
    { intros k n. cbn. rewrite lookup_insert.
      case_decide; [by intros [= <-]|by apply Hinv]. }
    destruct (IH this' Hinv') as (Hres & Hfirst & Hrng & Hkeys & Hkeep).
    destruct (getPrompts env keys this') as [rs this''] eqn:Hrun.
    cbn in *. split; [by rewrite Hres|]. split; [done|]. split; [done|].
    split.
    + intros k [->|Hin]%elem_of_cons; [|by apply Hkeys].
      apply Hkeep. apply lookup_insert_eq.
    + intros k Hk. apply Hkeep. rewrite lookup_insert.
      case_decide; [done|exact Hk].
Qed.

End DocsMode.

(** C8 (deterministic prompts in documentation-generation mode).  With
    [NX_GENERATE_DOCS_PROCESS] set to ['true'], every [getPrompt] call of a
    run on a fresh [PromptMessages] returns the prompt at index 0 of the
    options of its key and records 0 as the selection for that key; so two
    runs asking for the same keys return the same prompts, whatever
    [Math.random] would have returned.  The keys are those the embedding of
    [getPrompt] covers: any string that names no property inherited from
    [Object.prototype] (for such a name, ['toString'] say, the lookup in
    [selectedMessages] finds the inherited property and nothing is
    selected). *)
Theorem docs_mode_prompts_deterministic env keys rng1 rng2 :
  NX_GENERATE_DOCS_PROCESS env = Some "true" ->
  Forall (fun key => key ∉ inherited_properties) keys ->
  (getPrompts env keys (new_PromptMessages rng1)).1 = first_option <$> keys
  /\ (forall key msgs, messageOptions !! key = Some msgs ->
        first_option key = Returns (msgs !! 0))
  /\ (forall key, key ∈ keys ->
        selectedMessages (getPrompts env keys (new_PromptMessages rng1)).2
          !! key = Some 0)
  /\ (getPrompts env keys (new_PromptMessages rng1)).1
     = (getPrompts env keys (new_PromptMessages rng2)).1.
Proof.
  intros Hdocs _.
  assert (Hfresh : forall rng key n,
            selectedMessages (new_PromptMessages rng) !! key = Some n -> n = 0).
  { intros rng key n. cbn. by rewrite lookup_empty. }
  destruct (getPrompts_docs_mode env Hdocs keys (new_PromptMessages rng1)
              (Hfresh rng1)) as (Hres1 & _ & _ & Hsel & _).
  destruct (getPrompts_docs_mode env Hdocs keys (new_PromptMessages rng2)
              (Hfresh rng2)) as (Hres2 & _).
  split; [done|]. split.
  - intros key msgs Hkey. unfold first_option. by rewrite Hkey.
  - split; [done|]. by rewrite Hres1, Hres2.
Qed.

Section PromptExamples.
Import Samples.

Lemma docs_mode_prompts_deterministic_witness :
  (fun r => match r with
            | Returns (Some m) => code m
            | _ => ""
            end)
    <$> (getPrompts docs_env ["setupCI"; "setupNxCloud"; "setupCI"]
           (new_PromptMessages (fun i => 2 ^ 52 + Z.of_nat i)%Z)).1
  = ["which-ci-provider"; "enable-caching"; "which-ci-provider"].
Proof.
  assert (Hkeys : Forall (fun key => key ∉ inherited_properties)
                    ["setupCI"; "setupNxCloud"; "setupCI"]).
  { unfold inherited_properties.
    repeat apply List.Forall_cons; try apply List.Forall_nil;
      apply (bool_decide_unpack _); vm_compute; exact I. }
  rewrite (proj1 (docs_mode_prompts_deterministic docs_env
                    ["setupCI"; "setupNxCloud"; "setupCI"]
                    (fun i => 2 ^ 52 + Z.of_nat i)%Z (fun _ => 0%Z) eq_refl
                    Hkeys)).
  vm_compute. reflexivity.
Defined.

(** Outside that mode the selection follows [Math.random]: with a draw in
    the upper half of [0, 1) the second option of [setupCI] is selected,
    with a draw in the lower half the first. *)
Example prompts_follow_random :
  (fun r => match r with
            | Returns (Some m) => code m
            | _ => ""
            end)
    <$> (getPrompts isolated_env ["setupCI"]
           (new_PromptMessages (fun _ => 2 ^ 52)%Z)).1
  = ["set-up-ci"]
  /\ (fun r => match r with
               | Returns (Some m) => code m
               | _ => ""
               end)
       <$> (getPrompts isolated_env ["setupCI"]
              (new_PromptMessages (fun _ => 0)%Z)).1
     = ["which-ci-provider"].
Proof. split; vm_compute; reflexivity. Qed.

End PromptExamples.
End PromptFacts.

(** ** More on the loaded-plugin adapter *)

Module AdapterMore.
Import InternalApi Statements AdapterFacts.

Section Adapter.
Context {types : ImportedTypes} {imports : Imports}.

(** X1.  The [createNodes] function of a loaded plugin never rejects with
    anything but an aggregate error. *)
Theorem wrapped_rejections_are_aggregate plugin def pattern fn
    files context tl e tl' :
  createNodes (new_LoadedNxPlugin plugin def) = Some (pattern, fn) ->
  fn files context tl = (Rejected e, tl') ->
  isAggregateCreateNodesError e = true.
Proof.
  intros Hcap Hrun. rewrite createNodes_new_LoadedNxPlugin in Hcap.
  destruct (underlying_createNodes plugin def) as [under|]; [|discriminate].
  injection Hcap as _ <-.
  destruct (under files context (started plugin tl)) as [[raw|e0] tl0] eqn:Hu.
  - erewrite contain_errors_resolved in Hrun; [discriminate|].
    erewrite bind_resolved by exact Hu. reflexivity.
  - erewrite contain_errors_rejected in Hrun
      by (eapply bind_rejected; exact Hu).
    injection Hrun as <- _.
    destruct (isAggregateCreateNodesError e0) eqn:He0; [exact He0|reflexivity].
Qed.

(** X2.  Whether the underlying function resolves or rejects, the wrapped
    call records the start mark before it runs, and the end mark and the
    measure after it: the timeline it leaves is the one the underlying
    function left, run after the start mark, followed by those two
    entries. *)
Theorem wrapped_call_is_measured plugin def pattern fn under files context tl :
  createNodes (new_LoadedNxPlugin plugin def) = Some (pattern, fn) ->
  underlying_createNodes plugin def = Some under ->
  (fn files context tl).2
  = (under files context
       (tl ++ [Mark (name (new_LoadedNxPlugin plugin def)
                     +:+ ":createNodes - start")])).2
    ++ [Mark (name (new_LoadedNxPlugin plugin def) +:+ ":createNodes - end");
        Measure (name (new_LoadedNxPlugin plugin def) +:+ ":createNodes")
                (name (new_LoadedNxPlugin plugin def)
                 +:+ ":createNodes - start")
                (name (new_LoadedNxPlugin plugin def)
                 +:+ ":createNodes - end")].
Proof.
  intros Hcap Hunder. rewrite createNodes_new_LoadedNxPlugin, Hunder in Hcap.
  injection Hcap as _ <-. cbn [name new_LoadedNxPlugin].
  destruct (under files context
              (tl ++ [Mark (plugin_name plugin +:+ ":createNodes - start")]))
    as [[raw|e0] tl0] eqn:Hu.
  - erewrite contain_errors_resolved; [reflexivity|].
    erewrite bind_resolved by exact Hu. reflexivity.
  - erewrite contain_errors_rejected
      by (eapply bind_rejected; exact Hu).
    reflexivity.
Qed.

(** X3.  A loaded plugin has the [createNodes] capability exactly when the
    raw plugin has one of the two node-creation hooks, with the pattern of
    [createNodesV2] when that hook is present and of [createNodes]
    otherwise; it has [createDependencies] and [createMetadata] exactly when
    the raw plugin has them, and it carries the name and the
    [processProjectGraph] hook over unchanged. *)
Theorem capabilities_follow_hooks plugin def :
  fst <$> createNodes (new_LoadedNxPlugin plugin def)
    = match plugin_createNodesV2 plugin with
      | Some (pattern, _) => Some pattern
      | None => fst <$> plugin_createNodes plugin
      end
  /\ (is_Some (createNodes (new_LoadedNxPlugin plugin def)) <->
      is_Some (plugin_createNodes plugin)
      \/ is_Some (plugin_createNodesV2 plugin))
  /\ (is_Some (createDependencies (new_LoadedNxPlugin plugin def)) <->
      is_Some (plugin_createDependencies plugin))
  /\ (is_Some (createMetadata (new_LoadedNxPlugin plugin def)) <->
      is_Some (plugin_createMetadata plugin))
  /\ processProjectGraph (new_LoadedNxPlugin plugin def)
     = plugin_processProjectGraph plugin
  /\ name (new_LoadedNxPlugin plugin def) = plugin_name plugin.
Proof.
  unfold new_LoadedNxPlugin, createNodes_from_v2, createNodes_from_legacy.
  cbn.
  destruct (plugin_createNodesV2 plugin) as [[pat2 fn2]|],
    (plugin_createNodes plugin) as [[pat1 fn1]|],
    (plugin_createDependencies plugin), (plugin_createMetadata plugin);
    cbn; repeat split; intros; eauto;
    repeat match goal with
           | H : _ \/ _ |- _ => destruct H
           | H : is_Some None |- _ => by destruct H
           end.
Qed.

(** X4.  Every hook of the raw plugin is called with the options of the
    plugin's configuration.  The [createDependencies] and [createMetadata]
    of the loaded plugin forward the caller's arguments with them.  Its
    [createNodes] function is the error-containing wrapper around a call of
    [createNodesV2] with the matched files, these options and the context
    when the raw plugin has that hook, and around a call of
    [createNodesFromFiles] with the per-file [createNodes] hook, the matched
    files, these options and the context when it has only that one; either
    way the results are tagged with the plugin's name.  For a plugin
    configured by a bare string the options, [include] and [exclude] are
    undefined; otherwise they are those of the configuration. *)
Theorem hooks_receive_configured_options plugin def :
  (forall f, plugin_createDependencies plugin = Some f ->
     exists g, createDependencies (new_LoadedNxPlugin plugin def) = Some g
               /\ forall context tl,
                    g context tl
                    = f (options (new_LoadedNxPlugin plugin def)) context tl)
  /\ (forall f, plugin_createMetadata plugin = Some f ->
        exists g, createMetadata (new_LoadedNxPlugin plugin def) = Some g
                  /\ forall graph context tl,
                       g graph context tl
                       = f graph (options (new_LoadedNxPlugin plugin def))
                           context tl)
  /\ (forall pattern fn, plugin_createNodesV2 plugin = Some (pattern, fn) ->
        exists g,
          createNodes (new_LoadedNxPlugin plugin def) = Some (pattern, g)
          /\ forall files context tl,
               g files context tl
               = contain_errors (plugin_name plugin)
                   (fun files context =>
                      result ← fn files
                                 (options (new_LoadedNxPlugin plugin def))
                                 context;
                      mret (tag_results (plugin_name plugin) result))
                   files context tl)
  /\ (forall pattern fn,
        plugin_createNodesV2 plugin = None ->
        plugin_createNodes plugin = Some (pattern, fn) ->
        exists g,
          createNodes (new_LoadedNxPlugin plugin def) = Some (pattern, g)
          /\ forall files context tl,
               g files context tl
               = contain_errors (plugin_name plugin)
                   (fun files context =>
                      results ← createNodesFromFiles fn files
                                  (options (new_LoadedNxPlugin plugin def))
                                  context;
                      mret (tag_results (plugin_name plugin) results))
                   files context tl)
  /\ (forall path, def = PluginPath path ->
        options (new_LoadedNxPlugin plugin def) = None
        /\ include (new_LoadedNxPlugin plugin def) = None
        /\ exclude (new_LoadedNxPlugin plugin def) = None)
  /\ (forall p o i x, def = ExpandedPluginConfiguration p o i x ->
        options (new_LoadedNxPlugin plugin def) = o
        /\ include (new_LoadedNxPlugin plugin def) = i
        /\ exclude (new_LoadedNxPlugin plugin def) = x).
Proof.
  split; [|split; [|split; [|split; [|split]]]].
  - intros f Hf. unfold new_LoadedNxPlugin. cbn. rewrite Hf. eauto.
  - intros f Hf. unfold new_LoadedNxPlugin. cbn. rewrite Hf. eauto.
  - intros pattern fn Hfn.
    unfold new_LoadedNxPlugin, createNodes_from_v2. cbn [createNodes options].
    rewrite Hfn. eauto.
  - intros pattern fn Hv2 Hfn.
    unfold new_LoadedNxPlugin, createNodes_from_v2, createNodes_from_legacy.
    cbn [createNodes options]. rewrite Hv2, Hfn. eauto.
  - by intros path ->.
  - by intros p o i x ->.
Qed.

End Adapter.

Section AdapterExamples.
Import Samples.
#[local] Existing Instance sample_types.
#[local] Existing Instance sample_imports.

Lemma wrapped_rejections_are_aggregate_witness :
  exists fn e tl',
    createNodes (new_LoadedNxPlugin gradle_failing (PluginPath "@nx/gradle"))
      = Some ("**/build.gradle", fn)
    /\ fn ["proj/build.gradle"] tt [] = (Rejected e, tl')
    /\ isAggregateCreateNodesError e = true.
Proof.
  eexists _, _, _. split; [reflexivity|]. split; [reflexivity|].
  exact (wrapped_rejections_are_aggregate (imports := sample_imports)
           gradle_failing (PluginPath "@nx/gradle") _ _
           ["proj/build.gradle"] tt [] _ _ eq_refl eq_refl).
Defined.

Lemma hooks_receive_configured_options_witness :
  exists g,
    createNodes (new_LoadedNxPlugin options_reporter js_definition)
      = Some ("**/*", g)
    /\ (g ["a/package.json"] tt []).1
       = Resolved [("reporter", "a/package.json", ["opts"])].
Proof.
  destruct (proj1 (proj2 (proj2 (hooks_receive_configured_options
                                   (imports := sample_imports)
                                   options_reporter js_definition)))
              "**/*" options_hook eq_refl) as (g & Hg & Hcall).
  exists g. split; [exact Hg|]. rewrite Hcall. vm_compute. reflexivity.
Defined.

Lemma wrapped_call_is_measured_witness :
  exists fn,
    createNodes (new_LoadedNxPlugin gradle_failing (PluginPath "@nx/gradle"))
      = Some ("**/build.gradle", fn)
    /\ (fn ["proj/build.gradle"] tt []).2
       = [Mark "gradle:createNodes - start";
          Mark "gradle:createNodes - end";
          Measure "gradle:createNodes" "gradle:createNodes - start"
                  "gradle:createNodes - end"].
Proof.
  eexists. split; [reflexivity|].
  exact (wrapped_call_is_measured (imports := sample_imports)
           gradle_failing (PluginPath "@nx/gradle") _ _
           (fun files context => failing_hook files None context)
           ["proj/build.gradle"] tt [] eq_refl eq_refl).
Defined.

End AdapterExamples.
End AdapterMore.

(** ** More on plugin loading *)

Module LoaderMore.
Import InternalApi Statements MoreStatements LoaderFacts.

Section Loader.
Context {types : ImportedTypes} {imports : Imports}.
Implicit Types (env : ProcessEnv) (sched : list nat).
Implicit Types (specs : list PluginConfiguration).

(** Only promises that settle during the run are fulfilled. *)
Lemma Promise_all_from_covers {S A} (promises : list (S -> Outcome A * S))
    sched (values : list (option A)) (s : S) vs s' :
  Promise_all_from promises sched values s = (Some (Resolved vs), s') ->
  forall i, i < length values ->
    (exists a, values !! i = Some (Some a)) \/ i ∈ sched.
Proof.
  revert values s. induction sched as [|j sched IH]; intros values s; cbn.
  - destruct (mapM id values) as [vs0|] eqn:Hm; [|discriminate].
    intros _ i Hi. left. apply mapM_Some in Hm.
    apply lookup_lt_is_Some in Hi as [v Hv].
    destruct (Forall2_lookup_l _ _ _ _ _ Hm Hv) as (a & _ & Ha).
    cbn in Ha. subst v. eauto.
  - assert (Hrec : forall values s,
      Promise_all_from promises sched values s = (Some (Resolved vs), s') ->
      forall i, i < length values ->
        (exists a, values !! i = Some (Some a)) \/ i ∈ j :: sched).
    { intros values0 s0 Hrun i Hi.
      destruct (IH _ _ Hrun i Hi) as [?|?]; [by left|].
      right. by apply list_elem_of_further. }
    destruct (values !! j) as [[x|]|] eqn:Hv; try (by apply Hrec).
    destruct (promises !! j) as [p|] eqn:Hp; [|by apply Hrec].
    destruct (p s) as [[a|e] s1] eqn:Hps; [|discriminate].
    intros Hrun i Hi. destruct (decide (i = j)) as [->|Hne].
    { right. apply list_elem_of_here. }
    destruct (IH _ _ Hrun i) as [[b Hb]|Hin].
    + by rewrite length_insert.
    + rewrite list_lookup_insert_ne in Hb by done. eauto.
    + right. by apply list_elem_of_further.
Qed.

Lemma omap_filter_defined {A B} (f : A -> option B) (P : A -> Prop)
    `{forall x, Decision (P x)} (l : list A) :
  (forall x, ~ P x -> f x = None) -> omap f l = omap f (filter P l).
Proof.
  intros Hf. induction l as [|x l IH]; [done|].
  rewrite filter_cons. destruct (decide (P x)) as [Hx|Hx].
  - cbn. by rewrite IH.
  - cbn. rewrite (Hf x Hx). exact IH.
Qed.

(** The callbacks push the cleanup of each load as it settles. *)
Lemma callbacks_push_cleanups env specs (dir : string) sched values st vs st' :
  NoDup sched ->
  length values = length specs ->
  (forall i, i ∈ sched -> i < length specs -> values !! i = Some None) ->
  Promise_all_from
    (imap (fun idx plugin => load_callback (loadingMethod env plugin dir) idx)
          specs)
    sched values st = (Some (Resolved vs), st') ->
  cleanupFunctions st'
  = cleanupFunctions st ++ omap (cleanup_at env dir specs) sched.
Proof.
  intros Hnd. revert values st.
  induction Hnd as [|i sched Hni Hnd IH]; intros values st Hlen Hfresh.
  - cbn. destruct (mapM id values); [|discriminate].
    intros [= _ <-]. by rewrite app_nil_r.
  - assert (Hfresh' : forall v, forall j, j ∈ sched -> j < length specs ->
              <[i := v]> values !! j = Some None).
    { intros v j Hj Hlt. rewrite list_lookup_insert_ne by set_solver.
      apply Hfresh; [by apply list_elem_of_further|done]. }
    assert (Hfresh0 : forall j, j ∈ sched -> j < length specs ->
              values !! j = Some None).
    { intros j Hj. apply Hfresh. by apply list_elem_of_further. }
    assert (Hcons : omap (cleanup_at env dir specs) (i :: sched)
                    = match cleanup_at env dir specs i with
                      | Some c => c :: omap (cleanup_at env dir specs) sched
                      | None => omap (cleanup_at env dir specs) sched
                      end) by reflexivity.
    rewrite Hcons. clear Hcons. cbn [Promise_all_from].
    rewrite list_lookup_imap.
    destruct (specs !! i) as [spec|] eqn:Hspec.
    + rewrite Hfresh by (apply list_elem_of_here || by eapply lookup_lt_Some).
      cbn [fmap option_fmap option_map]. unfold load_callback at 1.
      destruct (loadingMethod env spec dir) as [[p c]|e] eqn:Hload;
        [|discriminate].
      assert (Hc : cleanup_at env dir specs i = Some c).
      { unfold cleanup_at. by rewrite Hspec, Hload. }
      rewrite Hc. intros Hrun. apply IH in Hrun.
      * rewrite Hrun. cbn [cleanupFunctions]. by rewrite <- app_assoc.
      * by rewrite length_insert.
      * apply Hfresh'.
    + assert (Hc : cleanup_at env dir specs i = None).
      { unfold cleanup_at. by rewrite Hspec. }
      rewrite Hc. cbn [fmap option_fmap option_map].
      destruct (values !! i) as [[x|]|] eqn:Hv.
      * apply lookup_ge_None in Hspec. apply lookup_lt_Some in Hv. lia.
      * by apply IH.
      * by apply IH.
Qed.

(** X5.  When the loads settle one after the other (no index twice in the
    completion order), the cleanup function [loadNxPlugins] returns calls
    the cleanup callback of every loaded specification exactly once, in the
    order in which the loads settled, and then the transpiler
    unregistration callback when one is set. *)
Theorem cleanup_runs_every_callback env sched1 sched2 plugins root tl
    loaded cleanup tl' :
  NoDup sched1 ->
  loadNxPlugins env sched1 sched2 plugins root tl
    = (Some (Resolved (loaded, cleanup)), tl') ->
  let dir := default InternalApi.workspaceRoot root in
  let specs := specifications plugins root in
  let cs := omap (cleanup_at env dir specs) sched1 in
  (forall w,
     cleanup w
     = match unregisterPluginTSTranspiler with
       | Some unregister => unregister (fold_left (fun w fn => fn w) cs w)
       | None => fold_left (fun w fn => fn w) cs w
       end)
  /\ cs ≡ₚ omap (cleanup_at env dir specs) (seq 0 (length specs))
  /\ length cs = length specs.
Proof.
  intros Hnd Hrun dir specs cs.
  pose proof (loadNxPlugins_resolved _ _ _ _ _ _ _ _ _ Hrun) as [_ Hloads].
  unfold loadNxPlugins in Hrun. fold dir in Hrun.
  change (normalizePlugins plugins dir) with specs in Hrun.
  destruct (Promise_all _ sched1 _) as [[[vs|e]|] st] eqn:Hone; try discriminate.
  destruct (Promise_all _ sched2 _) as [[[vs2|e]|] u] eqn:Htwo; try discriminate.
  injection Hrun as _ <- _.
  unfold Promise_all in Hone. rewrite length_imap in Hone.
  pose proof (Promise_all_from_covers _ _ _ _ _ _ Hone) as Hcover.
  apply callbacks_push_cleanups in Hone; [|done|by rewrite length_replicate|].
  2:{ intros i _ Hi. by apply lookup_replicate_2. }
  change (cleanupFunctions st = cs) in Hone.
  assert (Hperm : cs ≡ₚ omap (cleanup_at env dir specs) (seq 0 (length specs))).
  { assert (Hout : forall l : list nat,
              omap (cleanup_at env dir specs) l
              = omap (cleanup_at env dir specs)
                  (filter (fun i => i < length specs) l)).
    { intros l. apply omap_filter_defined. intros i Hi.
      unfold cleanup_at. rewrite (proj2 (lookup_ge_None specs i)) by lia.
      reflexivity. }
    unfold cs. rewrite Hout. apply omap_Permutation.
    apply NoDup_Permutation.
    - by apply NoDup_filter.
    - apply NoDup_seq.
    - intros i. rewrite list_elem_of_filter, elem_of_seq. split.
      + intros [Hi _]. lia.
      + intros [_ Hi]. split; [lia|].
        destruct (Hcover i) as [[a Ha]|Hin]; [| |done].
        * rewrite length_replicate. lia.
        * apply lookup_replicate in Ha as [[=] _]. }
  split; [|split; [exact Hperm|]].
  - intros w. unfold all_cleanup. by rewrite Hone.
  - rewrite Hperm. clear -Hloads.
    assert (Hall : forall i, i < length specs ->
              is_Some (cleanup_at env dir specs i)).
    { intros i Hi. apply lookup_lt_is_Some in Hi as [spec Hspec].
      destruct (Hloads i spec Hspec) as (p & Hp & _).
      unfold cleanup_at. fold specs in Hspec. rewrite Hspec.
      unfold loads, load_of in Hp. fold dir in Hp.
      destruct (loadingMethod env spec dir) as [[q c]|e]; [eauto|discriminate]. }
    revert Hall. generalize (cleanup_at env dir specs) as f.
    generalize (length specs) as n. intros n f Hall.
    assert (Hgen : forall k, (forall i, k <= i < k + n -> is_Some (f i)) ->
              length (omap f (seq k n)) = n).
    { clear Hall. induction n as [|n IHn]; intros k Hk; [done|].
      cbn. destruct (Hk k) as [c ->]; [lia|]. cbn. f_equal.
      apply IHn. intros i Hi. apply Hk. lia. }
    apply Hgen. intros i Hi. apply Hall. lia.
Qed.

(** X6.  [loadNxPlugins] always records its start mark; it records the end
    mark and the measure only when it returns the loaded plugins: a call
    that rejects, or that has not settled, leaves the start mark alone. *)
Theorem loadNxPlugins_marks env sched1 sched2 plugins root tl :
  (loadNxPlugins env sched1 sched2 plugins root tl).2
  = tl ++ [Mark "loadNxPlugins:start"]
       ++ match (loadNxPlugins env sched1 sched2 plugins root tl).1 with
          | Some (Resolved _) =>
              [Mark "loadNxPlugins:end";
               Measure "loadNxPlugins" "loadNxPlugins:start"
                       "loadNxPlugins:end"]
          | _ => []
          end.
Proof.
  unfold loadNxPlugins.
  destruct (Promise_all _ sched1 _) as [[[vs|e]|] st]; cbn;
    [|reflexivity..].
  destruct (Promise_all _ sched2 _) as [[[vs2|e]|] u]; cbn;
    [|reflexivity..].
  by rewrite <- app_assoc.
Qed.

(** Whatever the environment, the result of [loadNxPlugins] is that of
    loading through the method it selects. *)
Lemma loads_through_loadingMethod env sched1 sched2 plugins root tl :
  loads_through (loadingMethod env) sched1 sched2
    (specifications plugins root) (default InternalApi.workspaceRoot root)
    (loadNxPlugins env sched1 sched2 plugins root tl).1.
Proof.
  destruct (loadNxPlugins env sched1 sched2 plugins root tl) as [r tl'] eqn:Hrun.
  cbn [fst]. split; [|split].
  - intros loaded cleanup ->.
    destruct (loadNxPlugins_resolved _ _ _ _ _ _ _ _ _ Hrun) as [Hlen Hpos].
    split; [exact Hlen|]. intros i spec Hspec.
    destruct (Hpos i spec Hspec) as (p & Hload & Hi).
    unfold loads, load_of in Hload.
    destruct (loadingMethod env spec _) as [[q c]|e]; [|discriminate].
    subst q. eauto.
  - intros e ->.
    destruct (loadNxPlugins_rejected _ _ _ _ _ _ _ _ Hrun)
      as (i & spec & Hspec & Hload).
    exists i, spec. split; [exact Hspec|].
    unfold loads, load_of in Hload.
    destruct (loadingMethod env spec _) as [[q c]|e']; [|left; congruence].
    subst q. right. eauto.
  - intros Hs1 Hs2 Hall.
    destruct (loadNxPlugins_settles env sched1 sched2 plugins root tl Hs1 Hs2)
      as (o & tl'' & Hsettles).
    rewrite Hrun in Hsettles. injection Hsettles as -> _.
    destruct o as [[loaded cleanup]|e]; [eauto|].
    destruct (loadNxPlugins_rejected _ _ _ _ _ _ _ _ Hrun)
      as (i & spec & Hspec & Hload).
    destruct (Hall spec) as (p & c & Hp);
      [by eapply list_elem_of_lookup_2|].
    unfold loads, load_of in Hload. rewrite Hp in Hload. discriminate.
Qed.

(** X7.  Only the value ['false'] of [NX_ISOLATE_PLUGINS] turns isolation
    off.  With any other value, or none, [loadNxPlugins] loads through
    [loadNxPluginInIsolation]: the plugins it returns are, index by index,
    those [loadNxPluginInIsolation] yields for the specifications under the
    root, what it rejects with is a rejection of
    [loadNxPluginInIsolation] or of a promise it yielded, it is fulfilled
    when [loadNxPluginInIsolation] yields a plugin for every specification
    and everything settles, and the whole call is the same whatever the
    in-process loader is.  With ['false'] the same holds of [loadNxPlugin],
    whatever the isolating loader is. *)
Theorem isolation_switch env sched1 sched2 plugins root tl :
  (NX_ISOLATE_PLUGINS env <> Some "false" ->
   loads_through loadNxPluginInIsolation sched1 sched2
     (specifications plugins root) (default InternalApi.workspaceRoot root)
     (loadNxPlugins env sched1 sched2 plugins root tl).1
   /\ forall other,
        @loadNxPlugins _ (with_loaders imports loadNxPluginInIsolation other)
          env sched1 sched2 plugins root tl
        = loadNxPlugins env sched1 sched2 plugins root tl)
  /\ (NX_ISOLATE_PLUGINS env = Some "false" ->
      loads_through loadNxPlugin sched1 sched2
        (specifications plugins root) (default InternalApi.workspaceRoot root)
        (loadNxPlugins env sched1 sched2 plugins root tl).1
      /\ forall other,
           @loadNxPlugins _ (with_loaders imports other loadNxPlugin)
             env sched1 sched2 plugins root tl
           = loadNxPlugins env sched1 sched2 plugins root tl).
Proof.
  pose proof (loads_through_loadingMethod env sched1 sched2 plugins root tl)
    as Hthrough.
  split; intros Henv.
  - assert (Hmethod : loadingMethod env = loadNxPluginInIsolation).
    { unfold loadingMethod. by rewrite bool_decide_eq_true_2. }
    rewrite Hmethod in Hthrough. split; [exact Hthrough|].
    intros other. unfold loadNxPlugins, loadingMethod, with_loaders. cbn.
    by rewrite !bool_decide_eq_true_2.
  - assert (Hmethod : loadingMethod env = loadNxPlugin).
    { unfold loadingMethod.
      by rewrite bool_decide_eq_false_2 by (intros Hne; exact (Hne Henv)). }
    rewrite Hmethod in Hthrough. split; [exact Hthrough|].
    intros other. unfold loadNxPlugins, loadingMethod, with_loaders. cbn.
    by rewrite !bool_decide_eq_false_2 by (intros Hne; exact (Hne Henv)).
Qed.

(** X8.  The list [loadNxPlugins] returns for the user's plugins has the
    plugin loaded for [package-json-next-to-project-json] first, the plugin
    loaded for the user's [i]-th plugin at index [i + 1], and the plugin
    loaded for [project-json] last; it is four entries longer than the
    user's list, five when the Angular adapter is included. *)
Theorem loaded_plugins_layout env sched1 sched2 (user : list PluginConfiguration)
    root tl loaded cleanup tl' :
  loadNxPlugins env sched1 sched2 (Some user) root tl
    = (Some (Resolved (loaded, cleanup)), tl') ->
  length loaded
  = length user
    + (if shouldMergeAngularProjects (default InternalApi.workspaceRoot root)
                                     false
       then 5 else 4)
  /\ (exists p,
        loaded !! 0 = Some (Some p)
        /\ loads env root
             (PluginPath
                (join __dirname
                   "../../plugins/project-json/build-nodes/package-json-next-to-project-json"))
             (Resolved p))
  /\ (forall i spec, user !! i = Some spec ->
        exists p, loaded !! S i = Some (Some p)
                  /\ loads env root spec (Resolved p))
  /\ (exists p,
        last loaded = Some (Some p)
        /\ loads env root
             (PluginPath
                (join __dirname
                   "../../plugins/project-json/build-nodes/project-json"))
             (Resolved p)).
Proof.
  intros Hrun.
  destruct (loadNxPlugins_resolved _ _ _ _ _ _ _ _ _ Hrun) as [Hlen Hpos].
  set (dir := default InternalApi.workspaceRoot root) in *.
  destruct (plugin_resolution_order user dir)
    as (Hnorm & _ & Hfirst & Huser & _ & _).
  unfold specifications in Hlen, Hpos. fold dir in Hlen, Hpos.
  assert (Hlength : length (normalizePlugins (Some user) dir)
                    = length user
                      + (if shouldMergeAngularProjects dir false
                         then 5 else 4)).
  { rewrite Hnorm. cbn. rewrite length_app. cbn.
    destruct (shouldMergeAngularProjects dir false); cbn; lia. }
  split; [by rewrite Hlen|]. split; [|split].
  - destruct (Hpos 0 _ Hfirst) as (p & Hp & Hl). eauto.
  - intros i spec Hspec.
    destruct (Hpos (S i) spec) as (p & Hp & Hl); [|eauto].
    rewrite Huser by (by eapply lookup_lt_Some). exact Hspec.
  - rewrite last_lookup, Hlen.
    destruct (Hpos (pred (length (normalizePlugins (Some user) dir)))
                (PluginPath
                   (join __dirname
                      "../../plugins/project-json/build-nodes/project-json")))
      as (p & Hp & Hl); [|eauto].
    rewrite <- last_lookup, Hnorm.
    rewrite app_comm_cons, last_app_cons.
    by destruct (shouldMergeAngularProjects dir false).
Qed.

(** X18.  [loadNxPlugins] returns only once every per-plugin load and
    every promise of a loaded plugin has settled: there is no timeout, and
    a load that never settles keeps the call from returning. *)
Theorem loadNxPlugins_waits_for_every_load env sched1 sched2 plugins root tl
    loaded cleanup tl' :
  loadNxPlugins env sched1 sched2 plugins root tl
    = (Some (Resolved (loaded, cleanup)), tl') ->
  all_settle (length (specifications plugins root)) sched1
  /\ all_settle (length (specifications plugins root)) sched2.
Proof.
  unfold loadNxPlugins, specifications, all_settle.
  set (dir := default InternalApi.workspaceRoot root).
  set (specs := normalizePlugins plugins dir).
  destruct (Promise_all _ sched1 _) as [[[vs|e]|] st] eqn:Hone; try discriminate.
  destruct (Promise_all _ sched2 _) as [[[vs2|e]|] u] eqn:Htwo; try discriminate.
  intros _.
  destruct (callbacks_resolved _ _ _ _ _ _ Hone) as [Hlen _].
  unfold Promise_all in Hone, Htwo.
  rewrite length_imap in Hone. rewrite length_fmap, Hlen in Htwo.
  pose proof (Promise_all_from_covers _ _ _ _ _ _ Hone) as Hcover1.
  pose proof (Promise_all_from_covers _ _ _ _ _ _ Htwo) as Hcover2.
  rewrite length_replicate in Hcover1. rewrite length_replicate in Hcover2.
  split; apply Forall_forall; intros i [_ Hi]%elem_of_seq.
  - destruct (Hcover1 i) as [[a Ha]|Hin]; [lia| |done].
    apply lookup_replicate in Ha as [[=] _].
  - destruct (Hcover2 i) as [[a Ha]|Hin]; [lia| |done].
    apply lookup_replicate in Ha as [[=] _].
Qed.

End Loader.

Section LoaderExamples.
Import Samples.
#[local] Existing Instance sample_types.
#[local] Existing Instance sample_imports.

Lemma loadNxPlugins_waits_for_every_load_witness :
  all_settle 5 [1; 0; 2; 3; 4].
Proof.
  destruct (loadNxPlugins isolated_env [1; 0; 2; 3; 4] [0; 1; 2; 3; 4]
              (Some [PluginPath "@nx/gradle"]) None [])
    as [[[[loaded cleanup]|e]|] tl'] eqn:Hrun;
    try (vm_compute in Hrun; discriminate).
  exact (proj1 (loadNxPlugins_waits_for_every_load (imports := sample_imports)
                  isolated_env [1; 0; 2; 3; 4] [0; 1; 2; 3; 4]
                  (Some [PluginPath "@nx/gradle"]) None []
                  loaded cleanup tl' Hrun)).
Defined.

Lemma cleanup_runs_every_callback_witness :
  exists loaded cleanup tl',
    loadNxPlugins isolated_env [1; 0; 2; 3; 4] [0; 1; 2; 3; 4]
      (Some [PluginPath "@nx/gradle"]) None []
      = (Some (Resolved (loaded, cleanup)), tl')
    /\ cleanup []
       = ["/nx/src/project-graph/plugins/../../plugins/project-json/build-nodes/project-json";
          "/nx/src/project-graph/plugins/../../plugins/package-json-workspaces";
          "/nx/src/project-graph/plugins/../../plugins/js";
          "/nx/src/project-graph/plugins/../../plugins/project-json/build-nodes/package-json-next-to-project-json";
          "@nx/gradle"].
Proof.
  eexists _, _, _. split; [vm_compute; reflexivity|].
  rewrite (proj1 (cleanup_runs_every_callback (imports := sample_imports)
                    isolated_env [1; 0; 2; 3; 4] [0; 1; 2; 3; 4]
                    (Some [PluginPath "@nx/gradle"]) None [] _ _ _
                    ltac:(apply (bool_decide_unpack _); vm_compute; exact I)
                    eq_refl)).
  vm_compute. reflexivity.
Defined.

Lemma isolation_switch_witness :
  exists loaded cleanup tl' p c,
    @loadNxPlugins _ two_loaders in_process_env [1; 0; 2; 3; 4] [0; 1; 2; 3; 4]
      (Some [PluginPath "@nx/gradle"]) None []
      = (Some (Resolved (loaded, cleanup)), tl')
    /\ in_process_load (PluginPath "@nx/gradle") "/workspace"
       = Resolved (Resolved p, c)
    /\ loaded !! 1 = Some (Some p)
    /\ name p = "in-process:@nx/gradle".
Proof.
  destruct (@loadNxPlugins _ two_loaders in_process_env
              [1; 0; 2; 3; 4] [0; 1; 2; 3; 4]
              (Some [PluginPath "@nx/gradle"]) None [])
    as [[[[loaded cleanup]|e]|] tl'] eqn:Hrun;
    try (vm_compute in Hrun; discriminate).
  destruct (proj2 (isolation_switch (imports := two_loaders) in_process_env
                     [1; 0; 2; 3; 4] [0; 1; 2; 3; 4]
                     (Some [PluginPath "@nx/gradle"]) None [])
              eq_refl) as [(Hres & _ & _) _].
  rewrite Hrun in Hres.
  destruct (Hres loaded cleanup eq_refl) as [_ Hpos].
  destruct (Hpos 1 (PluginPath "@nx/gradle") eq_refl) as (p & c & Hp & Hi).
  exists loaded, cleanup, tl', p, c.
  split; [reflexivity|]. split; [exact Hp|]. split; [exact Hi|].
  vm_compute in Hp. by injection Hp as <- _.
Defined.

(** Without the variable the same call loads through the isolating
    loader. *)
Example isolation_is_the_default :
  exists loaded cleanup tl' p,
    @loadNxPlugins _ two_loaders isolated_env [1; 0; 2; 3; 4] [0; 1; 2; 3; 4]
      (Some [PluginPath "@nx/gradle"]) None []
      = (Some (Resolved (loaded, cleanup)), tl')
    /\ loaded !! 1 = Some (Some p)
    /\ name p = "@nx/gradle".
Proof.
  eexists _, _, _, _. split; [vm_compute; reflexivity|].
  split; reflexivity.
Qed.

Lemma loaded_plugins_layout_witness :
  exists loaded cleanup tl' p,
    loadNxPlugins isolated_env [1; 0; 2; 3; 4] [0; 1; 2; 3; 4]
      (Some [PluginPath "@nx/gradle"]) None []
      = (Some (Resolved (loaded, cleanup)), tl')
    /\ length loaded = 5
    /\ loaded !! 1 = Some (Some p)
    /\ name p = "@nx/gradle".
Proof.
  destruct (loadNxPlugins isolated_env [1; 0; 2; 3; 4] [0; 1; 2; 3; 4]
              (Some [PluginPath "@nx/gradle"]) None [])
    as [[[[loaded cleanup]|e]|] tl'] eqn:Hrun;
    try (vm_compute in Hrun; discriminate).
  destruct (loaded_plugins_layout (imports := sample_imports)
              isolated_env [1; 0; 2; 3; 4] [0; 1; 2; 3; 4]
              [PluginPath "@nx/gradle"] None [] loaded cleanup tl' Hrun)
    as (Hlen & _ & Huser & _).
  destruct (Huser 0 (PluginPath "@nx/gradle") eq_refl) as (p & Hp & Hload).
  exists loaded, cleanup, tl', p.
  split; [reflexivity|]. split; [exact Hlen|]. split; [exact Hp|].
  vm_compute in Hload. by injection Hload as <-.
Defined.

End LoaderExamples.
End LoaderMore.

(** ** More on prompt selection *)

Module PromptMore.
Import Prompts Statements MoreStatements.

Section Selection.
Implicit Types (env : ProcessEnv) (key : string) (this : PromptMessages).

(** Reads the selections of an instance given by its two members. *)
Ltac read_selections :=
  repeat match goal with
         | |- context [selectedMessages
                         {| selectedMessages := ?s; random := ?r |}] =>
             change (selectedMessages {| selectedMessages := s; random := r |})
               with s
         end.

(** The keys of [messageOptions] and their options. *)
Lemma messageOptions_cases key msgs :
  messageOptions !! key = Some msgs ->
  (key = "setupCI" \/ key = "setupNxCloud")
  /\ 0 < length msgs
  /\ Forall (fun m =>
       Forall (fun c => value c ∈ AbTesting.NxCloudChoices) (choices m)
       /\ initial m < length (choices m)
       /\ forall f, fallback m = Some f ->
            is_Some (messageOptions !! fallback_key f)
            /\ fallback_value f ∈ value <$> choices m) msgs.
Proof.
  intros Hkey. unfold messageOptions in Hkey at 1.
  apply elem_of_list_to_map_2 in Hkey.
  apply elem_of_cons in Hkey as [[= -> ->]|Hkey];
    [|apply elem_of_cons in Hkey as [[= -> ->]|Hkey];
      [|by apply elem_of_nil in Hkey]].
  - split; [by left|]. split; [cbn; lia|].
    apply List.Forall_cons; [|apply List.Forall_cons; [|apply List.Forall_nil]].
    + split; [cbn; unfold AbTesting.NxCloudChoices; by repeat constructor|].
      split; [cbn; lia|]. intros f [= <-].
      split; [eexists; vm_compute; reflexivity|cbn; by repeat constructor].
    + split; [cbn; unfold AbTesting.NxCloudChoices; by repeat constructor|].
      split; [cbn; lia|]. intros f [= <-].
      split; [eexists; vm_compute; reflexivity|cbn; by repeat constructor].
  - split; [by right|]. split; [cbn; lia|].
    apply List.Forall_cons; [|apply List.Forall_nil].
    split; [cbn; unfold AbTesting.NxCloudChoices; by repeat constructor|].
    split; [cbn; lia|]. intros f [=].
Qed.

Lemma Math_floor_times_lt (r : Z) (n : nat) :
  0 < n -> Math_floor_times (r mod 2 ^ 53) n < n.
Proof.
  intros Hn. unfold Math_floor_times.
  pose proof (Z.mod_pos_bound r (2 ^ 53) ltac:(lia)) as [Hlo Hhi].
  assert (0 <= (r mod 2 ^ 53) * Z.of_nat n / 2 ^ 53 < Z.of_nat n)%Z as [H0 H1].
  { split.
    - apply Z.div_pos; [|lia]. apply Z.mul_nonneg_nonneg; lia.
    - apply Z.div_lt_upper_bound; [lia|]. nia. }
  lia.
Qed.

(** What a call that returns a prompt has selected. *)
Lemma getPrompt_returns env key this m this' :
  getPrompt env key this = (Returns (Some m), this') ->
  exists msgs n,
    messageOptions !! key = Some msgs
    /\ selectedMessages this' !! key = Some n
    /\ msgs !! n = Some m.
Proof.
  unfold getPrompt.
  generalize (messageOptions !! key). intros opts.
  destruct this as [sel rng]. cbn [selectedMessages random].
  destruct (sel !! key) as [n|] eqn:Hsel.
  - cbn [selectedMessages]. rewrite Hsel. destruct opts as [msgs|]; [|done].
    intros [= Hm <-]. eauto.
  - destruct (bool_decide (NX_GENERATE_DOCS_PROCESS env = Some "true")).
    + cbn [selectedMessages]. rewrite lookup_insert_eq.
      destruct opts as [msgs|]; [|done].
      intros [= Hm <-]. cbn. rewrite lookup_insert_eq. eauto.
    + unfold Math_random. destruct opts as [msgs|]; [|done].
      cbn [selectedMessages]. rewrite lookup_insert_eq.
      intros [= Hm <-]. cbn. rewrite lookup_insert_eq. eauto.
Qed.

(** Every recorded selection of a message key is an index of its options. *)
#[local] Abbreviation in_bounds this :=
  (forall key n msgs,
     selectedMessages this !! key = Some n ->
     messageOptions !! key = Some msgs -> n < length msgs).

Lemma getPrompt_in_bounds env key this msgs :
  in_bounds this -> messageOptions !! key = Some msgs ->
  exists m this',
    getPrompt env key this = (Returns (Some m), this')
    /\ m ∈ msgs
    /\ in_bounds this'.
Proof.
  intros Hinv Hmsgs.
  destruct (messageOptions_cases key msgs Hmsgs) as (_ & Hne & _).
  unfold getPrompt. rewrite Hmsgs.
  destruct this as [sel rng]. cbn [selectedMessages random] in *.
  destruct (sel !! key) as [n|] eqn:Hsel.
  - cbn [selectedMessages]. rewrite Hsel.
    destruct (lookup_lt_is_Some_2 msgs n) as [m Hm]; [by eapply Hinv|].
    exists m. eexists. rewrite Hm. split; [reflexivity|].
    split; [by eapply list_elem_of_lookup_2|done].
  - assert (Hins : forall n rng', n < length msgs ->
      exists m,
        msgs !! n = Some m
        /\ in_bounds {| selectedMessages := <[key := n]> sel;
                        random := rng' |}).
    { intros n rng' Hn.
      destruct (lookup_lt_is_Some_2 msgs n Hn) as [m Hm].
      exists m. split; [done|]. intros k n' ms. cbn [selectedMessages].
      rewrite lookup_insert. case_decide.
      - subst k. intros [= <-]. rewrite Hmsgs. by intros [= <-].
      - apply Hinv. }
    destruct (bool_decide (NX_GENERATE_DOCS_PROCESS env = Some "true")).
    + destruct (Hins 0 rng Hne) as (m & Hm & Hinv').
      cbn [selectedMessages]. rewrite lookup_insert_eq, Hm.
      exists m. eexists. split; [reflexivity|].
      split; [by eapply list_elem_of_lookup_2|exact Hinv'].
    + unfold Math_random.
      destruct (Hins (Math_floor_times (rng 0 mod 2 ^ 53) (length msgs))
                  (fun i => rng (S i))
                  (Math_floor_times_lt _ _ Hne)) as (m & Hm & Hinv').
      cbn [selectedMessages]. rewrite lookup_insert_eq, Hm.
      exists m. eexists. split; [reflexivity|].
      split; [by eapply list_elem_of_lookup_2|exact Hinv'].
Qed.

(** X9.  A message key is selected once: after a [getPrompt] call for it,
    a further call for the same key, under whatever value of the
    documentation flag, returns the same prompt and changes nothing (it
    draws no random number); and a call leaves the selections of the other
    keys as they were. *)
Theorem getPrompt_selects_once env env' key this r this' :
  is_Some (messageOptions !! key) ->
  getPrompt env key this = (r, this') ->
  getPrompt env' key this' = (r, this')
  /\ forall k, k <> key ->
       selectedMessages this' !! k = selectedMessages this !! k.
Proof.
  intros [msgs Hmsgs]. unfold getPrompt. rewrite Hmsgs.
  destruct this as [sel rng]. cbn [selectedMessages random].
  destruct (sel !! key) as [n|] eqn:Hsel.
  - cbn [selectedMessages]. rewrite Hsel. intros [= <- <-].
    do 2 (read_selections; rewrite Hsel; cbn beta iota). by split.
  - destruct (bool_decide (NX_GENERATE_DOCS_PROCESS env = Some "true")).
    + cbn [selectedMessages]. rewrite lookup_insert_eq. intros [= <- <-].
      do 2 (read_selections; rewrite lookup_insert_eq; cbn beta iota).
      split; [done|].
      intros k Hk. by rewrite lookup_insert_ne.
    + unfold Math_random. cbn [selectedMessages].
      rewrite lookup_insert_eq. intros [= <- <-].
      do 2 (read_selections; rewrite lookup_insert_eq; cbn beta iota).
      split; [done|].
      intros k Hk. by rewrite lookup_insert_ne.
Qed.

(** X10.  On a fresh [PromptMessages], under any value of the documentation
    flag and any random numbers, every [getPrompt] call for a message key
    returns one of the options of that key: it neither throws nor returns
    [undefined]. *)
Theorem getPrompt_returns_an_option env keys rng :
  Forall (fun key => is_Some (messageOptions !! key)) keys ->
  Forall2
    (fun key r =>
       exists m msgs,
         r = Returns (Some m) /\ messageOptions !! key = Some msgs /\ m ∈ msgs)
    keys (getPrompts env keys (new_PromptMessages rng)).1.
Proof.
  intros Hkeys.
  assert (Hfresh : in_bounds (new_PromptMessages rng)).
  { intros key n msgs. cbn. by rewrite lookup_empty. }
  revert Hfresh. generalize (new_PromptMessages rng) as this.
  induction Hkeys as [|key keys [msgs Hmsgs] _ IH]; intros this Hinv.
  - cbn. constructor.
  - cbn [getPrompts].
    destruct (getPrompt_in_bounds env key this msgs Hinv Hmsgs)
      as (m & this' & -> & Hm & Hinv').
    specialize (IH this' Hinv').
    destruct (getPrompts env keys this') as [rs this'']. cbn in *.
    constructor; [eauto|exact IH].
Qed.

(** X11.  [codeOfSelectedPromptMessage] reports the code of the prompt
    [getPrompt] returned for the key; on a fresh [PromptMessages] it
    reports the empty string for every key that names no property
    inherited from [Object.prototype] (for an inherited name the lookup in
    [selectedMessages] is not undefined, and the call is outside this
    embedding). *)
Theorem code_of_selected_prompt env key this m this' :
  getPrompt env key this = (Returns (Some m), this') ->
  codeOfSelectedPromptMessage key this' = Returns (code m)
  /\ forall rng k,
       k ∉ inherited_properties ->
       codeOfSelectedPromptMessage k (new_PromptMessages rng) = Returns "".
Proof.
  intros Hrun. split.
  - destruct (getPrompt_returns env key this m this' Hrun)
      as (msgs & n & Hmsgs & Hsel & Hm).
    unfold codeOfSelectedPromptMessage. by rewrite Hsel, Hmsgs, Hm.
  - intros rng k _. unfold codeOfSelectedPromptMessage. cbn.
    by rewrite lookup_empty.
Qed.

(** X12.  Every prompt [getPrompt] returns is well formed: each of its
    choices has a value listed in [NxCloudChoices], its [initial] is the
    index of one of its choices, and its fallback, when it has one, names a
    message key and a value that is among its choices. *)
Theorem returned_prompts_are_well_formed env key this m this' :
  getPrompt env key this = (Returns (Some m), this') ->
  Forall (fun c => value c ∈ AbTesting.NxCloudChoices) (choices m)
  /\ initial m < length (choices m)
  /\ forall f, fallback m = Some f ->
       is_Some (messageOptions !! fallback_key f)
       /\ fallback_value f ∈ value <$> choices m.
Proof.
  intros Hrun.
  destruct (getPrompt_returns env key this m this' Hrun)
    as (msgs & n & Hmsgs & _ & Hm).
  destruct (messageOptions_cases key msgs Hmsgs) as (_ & _ & Hall).
  rewrite Forall_forall in Hall. apply Hall.
  by eapply list_elem_of_lookup_2.
Qed.

(** X13.  For a key that is no message key (and names no inherited
    property) and has no selection yet, [getPrompt] throws a [TypeError].
    In documentation mode it has by then recorded the selection 0 for the
    key, without drawing a random number, so that
    [codeOfSelectedPromptMessage] throws for the key as well; otherwise it
    records nothing, and has drawn one random number. *)
Theorem getPrompt_unknown_key env key this :
  key ∉ inherited_properties ->
  messageOptions !! key = None ->
  selectedMessages this !! key = None ->
  (getPrompt env key this).1 = Throws "TypeError"
  /\ (NX_GENERATE_DOCS_PROCESS env = Some "true" ->
      selectedMessages (getPrompt env key this).2
        = <[key := 0]> (selectedMessages this)
      /\ random (getPrompt env key this).2 = random this
      /\ codeOfSelectedPromptMessage key (getPrompt env key this).2
         = Throws "TypeError")
  /\ (NX_GENERATE_DOCS_PROCESS env <> Some "true" ->
      selectedMessages (getPrompt env key this).2 = selectedMessages this
      /\ random (getPrompt env key this).2 = (fun i => random this (S i))
      /\ codeOfSelectedPromptMessage key (getPrompt env key this).2
         = Returns "").
Proof.
  intros _ Hmsgs Hsel.
  unfold getPrompt, codeOfSelectedPromptMessage. rewrite Hmsgs, Hsel.
  destruct this as [sel rng]. cbn [selectedMessages random] in *.
  split; [|split].
  - by destruct (bool_decide (NX_GENERATE_DOCS_PROCESS env = Some "true")).
  - intros Hdocs. rewrite bool_decide_eq_true_2 by done. cbn.
    by rewrite lookup_insert_eq.
  - intros Hdocs. rewrite bool_decide_eq_false_2 by done. cbn.
    by rewrite Hsel.
Qed.

End Selection.

Section SelectionExamples.
Import Samples.

Lemma getPrompt_selects_once_witness :
  getPrompt docs_env "setupCI"
    (getPrompt isolated_env "setupCI"
       (new_PromptMessages (fun _ => 2 ^ 52)%Z)).2
  = getPrompt isolated_env "setupCI" (new_PromptMessages (fun _ => 2 ^ 52)%Z).
Proof.
  destruct (getPrompt isolated_env "setupCI"
              (new_PromptMessages (fun _ => 2 ^ 52)%Z))
    as [r this'] eqn:Hrun.
  refine (proj1 (getPrompt_selects_once isolated_env docs_env "setupCI"
                   (new_PromptMessages (fun _ => 2 ^ 52)%Z) r this' _ Hrun)).
  eexists. vm_compute. reflexivity.
Defined.

Lemma getPrompt_returns_an_option_witness :
  Forall2
    (fun key r =>
       exists m msgs,
         r = Returns (Some m) /\ messageOptions !! key = Some msgs /\ m ∈ msgs)
    ["setupCI"; "setupNxCloud"]
    (getPrompts isolated_env ["setupCI"; "setupNxCloud"]
       (new_PromptMessages (fun i => 2 ^ 52 + Z.of_nat i)%Z)).1.
Proof.
  apply (getPrompt_returns_an_option isolated_env ["setupCI"; "setupNxCloud"]).
  repeat apply List.Forall_cons; try apply List.Forall_nil;
    eexists; vm_compute; reflexivity.
Defined.

Lemma code_of_selected_prompt_witness :
  codeOfSelectedPromptMessage "setupCI"
    (getPrompt isolated_env "setupCI"
       (new_PromptMessages (fun _ => 2 ^ 52)%Z)).2
  = Returns "set-up-ci".
Proof.
  destruct (getPrompt isolated_env "setupCI"
              (new_PromptMessages (fun _ => 2 ^ 52)%Z))
    as [r this'] eqn:Hrun.
  assert (Hr : exists m, r = Returns (Some m) /\ code m = "set-up-ci").
  { vm_compute in Hrun. injection Hrun as <- _. eexists. split; reflexivity. }
  destruct Hr as (m & -> & <-).
  exact (proj1 (code_of_selected_prompt isolated_env "setupCI" _ m this' Hrun)).
Defined.

Lemma returned_prompts_are_well_formed_witness :
  exists m this',
    getPrompt docs_env "setupCI" (new_PromptMessages (fun _ => 0%Z))
      = (Returns (Some m), this')
    /\ initial m < length (choices m).
Proof.
  destruct (getPrompt docs_env "setupCI" (new_PromptMessages (fun _ => 0%Z)))
    as [r this'] eqn:Hrun.
  assert (Hr : exists m, r = Returns (Some m)).
  { vm_compute in Hrun. injection Hrun as <- _. eexists. reflexivity. }
  destruct Hr as (m & ->). exists m, this'. split; [reflexivity|].
  exact (proj1 (proj2 (returned_prompts_are_well_formed docs_env "setupCI"
                         _ m this' Hrun))).
Defined.

Lemma getPrompt_unknown_key_witness :
  (getPrompt docs_env "setupGit" (new_PromptMessages (fun _ => 0%Z))).1
  = Throws "TypeError".
Proof.
  refine (proj1 (getPrompt_unknown_key docs_env "setupGit"
                   (new_PromptMessages (fun _ => 0%Z)) _ _ _)).
  - unfold inherited_properties. apply (bool_decide_unpack _).
    vm_compute. exact I.
  - vm_compute. reflexivity.
  - reflexivity.
Defined.

End SelectionExamples.
End PromptMore.

(** ** Usage statistics *)

Module StatsFacts.
Import Prompts AbTesting.

Section Stats.
Context {imports : StatsImports}.

(** Closes the cases in which the answer is not [false]. *)
Ltac answers_true :=
  split;
  [ split;
    [ discriminate
    | intros (pmc & c & out & Hp & Hu & Hne & Hout & Hhn);
      simplify_eq/=; congruence ]
  | split;
    [ intros e; split; intros; simplify_eq; done
    | first [ by left | right; right; eauto ] ] ].

(** X14.  [shouldRecordStats] fails open: it answers [false] only when the
    package manager has a registry command, the command runs, and its
    trimmed output parses as a URL whose host name is [localhost]; it throws
    only when [getPackageManagerCommand] throws, with what that threw; in
    every other case (no registry command, a failing command, output that
    is no URL, another host) it answers [true]. *)
Theorem shouldRecordStats_fails_open :
  (shouldRecordStats = Returns false <->
   exists pmc registryCommand stdout,
     getPackageManagerCommand = Returns pmc
     /\ getRegistryUrl pmc = Some registryCommand
     /\ registryCommand <> ""
     /\ execSync registryCommand = Returns stdout
     /\ URL_hostname (trim stdout) = Returns "localhost")
  /\ (forall e,
        shouldRecordStats = Throws e <-> getPackageManagerCommand = Throws e)
  /\ (shouldRecordStats = Returns true
      \/ shouldRecordStats = Returns false
      \/ exists e, shouldRecordStats = Throws e).
Proof.
  unfold shouldRecordStats, truthy.
  destruct getPackageManagerCommand as [[[cmd|]]|e0] eqn:Hpmc;
    cbn [getRegistryUrl]; [|answers_true..].
  destruct (String.eqb_spec cmd "") as [->|Hcmd]; cbn [negb];
    [answers_true|].
  destruct (execSync cmd) as [stdout|e1] eqn:Hexec; [|answers_true].
  destruct (URL_hostname (trim stdout)) as [hostname|e2] eqn:Hurl;
    [|answers_true].
  destruct (String.eqb_spec hostname "localhost") as [->|Hhost]; cbn [negb];
    [|answers_true].
  split; [|split; [intros e; split; discriminate|right; by left]].
  split; [|done]. intros _.
  exists {| getRegistryUrl := Some cmd |}, cmd, stdout. done.
Qed.

(** X15.  [recordStat] never rejects, whatever fails underneath.  It sends
    one request, to [/nx-cloud/stats] of [https://cloud.nx.app] with a
    timeout of 400 ms and the non-empty entries of [meta] joined by commas,
    exactly when [shouldRecordStats()] answers [true] and axios loads;
    otherwise it sends none. *)
Theorem recordStat_never_rejects verbose opts w :
  (recordStat verbose opts w).1 = Returns tt
  /\ (shouldRecordStats = Returns true /\ require_axios = Returns tt ->
      requests (recordStat verbose opts w).2
      = requests w
        ++ [{| config := {| baseURL := "https://cloud.nx.app";
                            timeout := 400 |};
               url := "/nx-cloud/stats";
               body := {| body_command := command opts;
                          body_isCI := isCI;
                          body_useCloud := useCloud opts;
                          body_meta :=
                            join_with ","
                              (List.filter (fun v => negb (String.eqb v ""))
                                           (meta opts)) |} |}])
  /\ (~ (shouldRecordStats = Returns true /\ require_axios = Returns tt) ->
      requests (recordStat verbose opts w).2 = requests w).
Proof.
  unfold recordStat.
  destruct shouldRecordStats as [[|]|e0]; cycle 1.
  - split; [done|]. split; [by intros [[=] _]|done].
  - destruct (bool_decide (verbose = Some "true"));
      (split; [done|]); (split; [by intros [[=] _]|done]).
  - destruct require_axios as [[]|e1].
    + destruct (axios_post _) as [[]|e2];
        [|destruct (bool_decide (verbose = Some "true"))];
        (split; [done|]); (split; [done|]); intros Hnot; by destruct Hnot.
    + destruct (bool_decide (verbose = Some "true"));
        (split; [done|]); (split; [by intros [_ [=]]|done]).
Qed.

(** X16.  [recordStat] writes to [console.error] only what was thrown, at
    most one line, and only when [NX_VERBOSE_LOGGING] is ['true']; with any
    other value, or none, failures are silent. *)
Theorem recordStat_logs_only_when_verbose verbose opts w :
  (verbose <> Some "true" ->
   console_error (recordStat verbose opts w).2 = console_error w)
  /\ (console_error (recordStat verbose opts w).2 = console_error w
      \/ exists e,
           console_error (recordStat verbose opts w).2
             = console_error w ++ [e]
           /\ verbose = Some "true"
           /\ (shouldRecordStats = Throws e
               \/ require_axios = Throws e
               \/ exists request, axios_post request = Throws e)).
Proof.
  unfold recordStat.
  destruct shouldRecordStats as [[|]|e0] eqn:Hshould.
  - destruct require_axios as [[]|e1] eqn:Haxios.
    + destruct (axios_post _) as [[]|e2] eqn:Hpost.
      * split; [done|by left].
      * destruct (decide (verbose = Some "true")) as [Hv|Hv].
        -- rewrite bool_decide_eq_true_2 by done. split; [done|].
           right. exists e2. cbn. eauto 10.
        -- rewrite bool_decide_eq_false_2 by done. split; [done|by left].
    + destruct (decide (verbose = Some "true")) as [Hv|Hv].
      * rewrite bool_decide_eq_true_2 by done. split; [done|].
        right. exists e1. cbn. eauto 10.
      * rewrite bool_decide_eq_false_2 by done. split; [done|by left].
  - split; [done|by left].
  - destruct (decide (verbose = Some "true")) as [Hv|Hv].
    + rewrite bool_decide_eq_true_2 by done. split; [done|].
      right. exists e0. cbn. eauto 10.
    + rewrite bool_decide_eq_false_2 by done. split; [done|by left].
Qed.

End Stats.

Section StatsExamples.
Import MoreSamples.

(** On a machine with a local registry nothing is sent. *)
Example local_registry_sends_nothing :
  @shouldRecordStats local_registry = Returns false
  /\ @recordStat local_registry (Some "true") stat_options empty_world
     = (Returns tt, empty_world).
Proof. split; vm_compute; reflexivity. Qed.

(** When the registry command fails the request is sent; it times out, and
    the failure is logged in verbose mode only. *)
Example failing_registry_command_sends :
  @recordStat failing_registry_command (Some "true") stat_options empty_world
  = (Returns tt,
     {| requests :=
          [{| config := {| baseURL := "https://cloud.nx.app";
                           timeout := 400 |};
              url := "/nx-cloud/stats";
              body := {| body_command := "create-nx-workspace";
                         body_isCI := true;
                         body_useCloud := true;
                         body_meta := "setupCI,which-ci-provider" |} |}];
        console_error := ["timeout of 400ms exceeded"] |})
  /\ console_error
       (@recordStat failing_registry_command None stat_options empty_world).2
     = [].
Proof. split; vm_compute; reflexivity. Qed.

End StatsExamples.
End StatsFacts.

(** ** The Nuxt init generator *)

Module NuxtFacts.
Import Prompts NuxtInit MoreStatements.

Section Generator.
Context {types : NuxtTypes} {imports : NuxtImports}.

(** X17.  [nuxtInitGenerator] registers the plugin first: when [addPlugin]
    rejects, the generator rejects with the same error and leaves the tree
    as [addPlugin] left it.  With [skipPackageJson] set it returns an
    install task that does nothing and the tree as [addPlugin] left it; in
    both cases [updateDependencies] plays no part.  Otherwise it returns
    what [updateDependencies] returns on the tree [addPlugin] left. *)
Theorem nuxtInitGenerator_install_task host schema :
  let added :=
    addPlugin host "@nx/nuxt/plugin" createNodes
      [("buildTargetName", ["build"; "nuxt:build"; "nuxt-build"]);
       ("serveTargetName", ["serve"; "nuxt:serve"; "nuxt-serve"])]
      (updatePackageScripts schema) in
  (forall e, added.1 = Throws e ->
     nuxtInitGenerator host schema = (Throws e, added.2))
  /\ (added.1 = Returns tt -> skipPackageJson schema = Some true ->
      exists task,
        nuxtInitGenerator host schema = (Returns task, added.2)
        /\ forall m, task m = m)
  /\ (added.1 = Returns tt -> skipPackageJson schema <> Some true ->
      nuxtInitGenerator host schema = updateDependencies added.2 schema)
  /\ ((exists e, added.1 = Throws e) \/ skipPackageJson schema = Some true ->
      forall other,
        @nuxtInitGenerator _ (with_updateDependencies imports other)
          host schema
        = nuxtInitGenerator host schema).
Proof.
  intros added. unfold nuxtInitGenerator, with_updateDependencies. cbn.
  fold added. destruct added as [[[]|e0] host'] eqn:Hadded; cbn.
  - split; [by intros e [=]|]. split; [|split].
    + intros _ ->. cbn. eauto.
    + intros _ Hskip.
      destruct (skipPackageJson schema) as [[|]|]; cbn; done.
    + intros [[e [=]]| ->] other. reflexivity.
  - split; [by intros e [= <-]|]. split; [|split]; try done.
Qed.

End Generator.

Section GeneratorExamples.
Import MoreSamples.

Lemma nuxtInitGenerator_install_task_witness :
  exists task,
    @nuxtInitGenerator _ nuxt_imports ["nx.json"]
      {| skipPackageJson := Some true; updatePackageScripts := None |}
    = (Returns task, ["nx.json"; "nx.json: @nx/nuxt/plugin"])
    /\ task [] = [].
Proof.
  destruct (proj1 (proj2 (nuxtInitGenerator_install_task
                            (imports := nuxt_imports) ["nx.json"]
                            {| skipPackageJson := Some true;
                               updatePackageScripts := None |}))
              eq_refl eq_refl) as (task & Hrun & Hnoop).
  exists task. split; [exact Hrun|apply Hnoop].
Defined.

(** Without [skipPackageJson] the dependencies are updated on the tree the
    plugin was registered in; when the tree has no [nx.json] nothing else
    happens. *)
Example nuxtInitGenerator_runs :
  (exists task,
     @nuxtInitGenerator _ nuxt_imports ["nx.json"]
       {| skipPackageJson := None; updatePackageScripts := None |}
     = (Returns task,
        ["nx.json"; "nx.json: @nx/nuxt/plugin"; "package.json"])
     /\ task [] = ["install"])
  /\ @nuxtInitGenerator _ nuxt_imports []
       {| skipPackageJson := None; updatePackageScripts := None |}
     = (Throws "Cannot read nx.json", []).
Proof. split; [eexists; split|]; vm_compute; reflexivity. Qed.

End GeneratorExamples.
End NuxtFacts.
